(** * The tool-calling chat loop of [1_foundations/app.py]

    A shallow embedding of the module's functions ([push],
    [record_user_details], [record_unknown_question],
    [Me.handle_tool_call], [Me.system_prompt], [Me.chat]) and the
    properties of the conversation loop proved about them.

    Python values are an inductive type, exceptions are values of a
    result type, and the outside world (the notification service, the
    generation endpoint, the standard output) is an explicit state
    threaded through a small state-and-exception monad.  What the module
    imports and cannot be read from its source (the JSON decoder, the
    HTTP client, the endpoint, [repr]) is collected in one record of
    environment functions over which every theorem is universally
    quantified. *)

From Stdlib Require Import ZArith String Ascii List DecimalString Lia.
From stdpp Require Import base strings list gmap.

Local Open Scope string_scope.
Local Open Scope list_scope.

(** ** Python values *)

(** The three functions the module defines with [def]. *)
Inductive pyfun :=
| Fpush
| Frecord_user_details
| Frecord_unknown_question.

(** Values that can be bound in the module namespace, decoded from a
    JSON payload or returned from a tool.  A [str] is a sequence of code
    points below 256; a [dict] keeps its insertion order; JSON numbers
    are integers. *)
#[warnings="-register-all"]
Inductive pyval :=
| VNone
| VBool (b : bool)
| VInt (z : Z)
| VStr (s : string)
| VList (items : list pyval)
| VDict (kvs : list (string * pyval))
| VFunction (f : pyfun)
| VClassMe
| VModule (name : string)
| VExternal (name : string)
| VObject (cls : string).

(** Exceptions, by class.  [Exception cls] stands for the classes raised
    by imported code (requests, openai, pypdf) and by [Me.__init__]. *)
Inductive exn :=
| JSONDecodeError
| TypeError
| IndexError
| Exception (cls : string).

Inductive res (A : Type) :=
| Ok (a : A)
| Raise (e : exn).
Arguments Ok {A} a.
Arguments Raise {A} e.

(** Truth value of an object, as tested by [if tool]. *)
Definition truthy (v : pyval) : bool :=
  match v with
  | VNone => false
  | VBool b => b
  | VInt z => negb (z =? 0)%Z
  | VStr s => negb (String.eqb s "")
  | VList items => match items with [] => false | _ => true end
  | VDict kvs => match kvs with [] => false | _ => true end
  | VFunction _ | VClassMe | VModule _ | VExternal _ | VObject _ => true
  end.

(** ** [json.dumps] with its default arguments *)

Definition hex_digit (n : nat) : ascii :=
  match n with
  | 0 => "0" | 1 => "1" | 2 => "2" | 3 => "3" | 4 => "4" | 5 => "5"
  | 6 => "6" | 7 => "7" | 8 => "8" | 9 => "9" | 10 => "a" | 11 => "b"
  | 12 => "c" | 13 => "d" | 14 => "e" | _ => "f"
  end%char.

(** One character of a string literal: [ensure_ascii] escapes whatever
    lies outside the range from the space to the tilde. *)
Definition escape_char (c : ascii) : string :=
  let n := nat_of_ascii c in
  if Nat.eqb n 34 then "\" +:+ String c ""
  else if Nat.eqb n 92 then "\\"
  else if Nat.eqb n 10 then "\n"
  else if Nat.eqb n 13 then "\r"
  else if Nat.eqb n 9 then "\t"
  else if Nat.eqb n 8 then "\b"
  else if Nat.eqb n 12 then "\f"
  else if (Nat.leb 32 n && Nat.leb n 126)%bool then String c ""
  else "\u00" +:+ String (hex_digit (n / 16)) (String (hex_digit (n mod 16)) "").

Fixpoint escape (s : string) : string :=
  match s with
  | EmptyString => ""
  | String c rest => escape_char c +:+ escape rest
  end.

Definition dquote : string := String (ascii_of_nat 34) "".

Definition quote (s : string) : string := dquote +:+ escape s +:+ dquote.

Definition decimal (z : Z) : string := NilZero.string_of_int (Z.to_int z).

Fixpoint join (sep : string) (parts : list string) : string :=
  match parts with
  | [] => ""
  | [p] => p
  | p :: rest => p +:+ sep +:+ join sep rest
  end.

(** [None] stands for the [TypeError] raised on an object that is not
    JSON serializable. *)
Fixpoint json_dumps (v : pyval) : option string :=
  match v with
  | VNone => Some "null"
  | VBool true => Some "true"
  | VBool false => Some "false"
  | VInt z => Some (decimal z)
  | VStr s => Some (quote s)
  | VList items =>
      let fix each (l : list pyval) : option (list string) :=
        match l with
        | [] => Some []
        | x :: rest =>
            match json_dumps x, each rest with
            | Some a, Some b => Some (a :: b)
            | _, _ => None
            end
        end in
      match each items with
      | Some parts => Some ("[" +:+ join ", " parts +:+ "]")
      | None => None
      end
  | VDict kvs =>
      let fix each (l : list (string * pyval)) : option (list string) :=
        match l with
        | [] => Some []
        | (k, x) :: rest =>
            match json_dumps x, each rest with
            | Some a, Some b => Some ((quote k +:+ ": " +:+ a) :: b)
            | _, _ => None
            end
        end in
      match each kvs with
      | Some parts => Some ("{" +:+ join ", " parts +:+ "}")
      | None => None
      end
  | VFunction _ | VClassMe | VModule _ | VExternal _ | VObject _ => None
  end.

(** ** The outside world *)

(** What a turn can change outside the process: the [message] fields of
    the [requests.post] calls made to the notification service, the
    lines printed, and the number of calls made to the generation
    endpoint. *)
Record world := World {
  posts : list pyval;
  stdout : list string;
  api_calls : nat
}.

(** ** Messages *)

Record tool_call := ToolCall {
  tc_id : string;
  tc_name : string;          (* tool_call.function.name *)
  tc_arguments : string      (* tool_call.function.arguments *)
}.

(** [choice.message]: the content is nullable, and so is the list of
    tool calls. *)
Record completion_message := CompletionMessage {
  content : option string;
  tool_calls : option (list tool_call)
}.

Record choice := Choice {
  finish_reason : string;
  message : completion_message
}.

Record completion := Completion { choices : list choice }.

(** The dict built at the end of the body of the loop of
    [handle_tool_call]. *)
Record tool_message := ToolMessage {
  tm_role : string;
  tm_content : string;
  tool_call_id : string
}.

(** An element of [messages]: a role/content dict, a tool-result dict,
    or the message object of a completion, whose role is "assistant". *)
Inductive msg :=
| Plain (role text : string)
| Tool (m : tool_message)
| Assistant (m : completion_message).

Definition role_of (m : msg) : string :=
  match m with
  | Plain role _ => role
  | Tool m => tm_role m
  | Assistant _ => "assistant"
  end.

(** ** State and exceptions *)

Definition M (A : Type) : Type := world -> res A * world.

Definition ret {A} (a : A) : M A := fun w => (Ok a, w).
Definition raise {A} (e : exn) : M A := fun w => (Raise e, w).
Definition bind {A B} (m : M A) (k : A -> M B) : M B :=
  fun w =>
    match m w with
    | (Ok a, w') => k a w'
    | (Raise e, w') => (Raise e, w')
    end.

Notation "'let*' x ':=' m 'in' k" := (bind m (fun x => k))
  (at level 10, x pattern, m at level 100, k at level 200).

(** ** The environment *)

Inductive post_outcome :=
| Responded (status_code : Z)   (* requests.post returned a Response *)
| Failed (e : exn).             (* requests.post raised *)

(** What the module gets from its imports and from the process it runs
    in.  [json_loads] answers [None] where [json.loads] raises
    [JSONDecodeError]; [py_repr] is [repr] on values that are not
    strings; [completions_create] is [self.gemini.chat.completions.create],
    given the number of calls made before and the messages;
    [external_call] is the outcome of calling an imported callable with
    keyword arguments (none of them reaches the notification service,
    the endpoint or the standard output);
    [Me_init] says whether [Me.__init__] raises; [globals] is the
    namespace of the module. *)
Record env := Env {
  json_loads : string -> option pyval;
  py_repr : pyval -> string;
  requests_post : world -> pyval -> post_outcome;
  completions_create : nat -> list msg -> res completion;
  external_call : string -> list (string * pyval) -> world -> res pyval;
  Me_init : option exn;
  globals : gmap string pyval
}.

(** [d.get(key)]: [None] for a key that is not in the dict. *)
Definition dict_get (d : gmap string pyval) (key : string) : pyval :=
  default VNone (d !! key).

(** The world after one more call to the generation endpoint. *)
Definition called (w : world) : world :=
  World (posts w) (stdout w) (S (api_calls w)).

(** ** The module *)

(** The attributes of a [Me] instance that the turn reads. *)
Record Me := MkMe {
  name : string;
  linkedin : string;
  summary : string
}.

Definition nl : string := String (ascii_of_nat 10) "".

Section Module.

Context (E : env).

Definition print (line : string) : M unit :=
  fun w => (Ok tt, World (posts w) (stdout w ++ [line]) (api_calls w)).

(** A replacement field of an f-string: [str] of a string is the string,
    [str] of the other values is their [repr]. *)
Definition format (v : pyval) : string :=
  match v with
  | VStr s => s
  | _ => py_repr E v
  end.

(** [push]: the call is recorded, its Response is dropped, and what
    [requests.post] raises goes up to the caller. *)
Definition push (text : pyval) : M pyval :=
  fun w =>
    let w' := World (posts w ++ [text]) (stdout w) (api_calls w) in
    match requests_post E w text with
    | Responded _ => (Ok VNone, w')
    | Failed e => (Raise e, w')
    end.

(** A parameter with a default value is an [option]: [None] when the
    caller leaves it out. *)
Definition record_user_details (email : pyval) (name notes : option pyval)
  : M pyval :=
  let name := default (VStr "Name not provided") name in
  let notes := default (VStr "not provided") notes in
  let* _ := push (VStr ("Recording " +:+ format name +:+ " with email "
                        +:+ format email +:+ " and notes " +:+ format notes)) in
  ret (VDict [("recorded", VStr "ok")]).

Definition record_unknown_question (question : pyval) : M pyval :=
  let* _ := push (VStr ("Recording " +:+ format question)) in
  ret (VDict [("recorded", VStr "ok")]).

(** *** Calls with keyword arguments *)

Definition kwarg (key : string) (kwargs : list (string * pyval))
  : option pyval :=
  snd <$> List.find (fun kv => String.eqb (fst kv) key) kwargs.

(** No keyword outside the parameters of the function. *)
Definition only_keys (params : list string) (kwargs : list (string * pyval))
  : bool :=
  forallb (fun kv => existsb (String.eqb (fst kv)) params) kwargs.

(** The call of [tool] with the decoded payload unpacked as keyword
    arguments: the payload must be a mapping, the object must be
    callable, and the keywords must fit the signature. *)
Definition call (tool : pyval) (arguments : pyval) : M pyval :=
  match arguments with
  | VDict kwargs =>
      match tool with
      | VFunction Fpush =>
          if only_keys ["text"] kwargs then
            match kwarg "text" kwargs with
            | Some text => push text
            | None => raise TypeError
            end
          else raise TypeError
      | VFunction Frecord_user_details =>
          if only_keys ["email"; "name"; "notes"] kwargs then
            match kwarg "email" kwargs with
            | Some email =>
                record_user_details email (kwarg "name" kwargs)
                  (kwarg "notes" kwargs)
            | None => raise TypeError
            end
          else raise TypeError
      | VFunction Frecord_unknown_question =>
          if only_keys ["question"] kwargs then
            match kwarg "question" kwargs with
            | Some question => record_unknown_question question
            | None => raise TypeError
            end
          else raise TypeError
      | VClassMe =>
          match kwargs with
          | [] =>
              match Me_init E with
              | None => ret (VObject "Me")
              | Some e => raise e
              end
          | _ => raise TypeError
          end
      | VExternal callee => fun w => (external_call E callee kwargs w, w)
      | _ => raise TypeError
      end
  | _ => raise TypeError
  end.

(** *** [Me.handle_tool_call] *)

(** The body of the [for] loop, up to the dict that is appended. *)
Definition run_tool_call (tool_call : tool_call) : M tool_message :=
  let tool_name := tc_name tool_call in
  let* arguments :=
    match json_loads E (tc_arguments tool_call) with
    | Some v => ret v
    | None => raise JSONDecodeError
    end in
  let* _ := print ("Tool called: " +:+ tool_name) in
  let tool := dict_get (globals E) tool_name in
  let* result := if truthy tool then call tool arguments else ret (VDict []) in
  let* content :=
    match json_dumps result with
    | Some s => ret s
    | None => raise TypeError
    end in
  ret (ToolMessage "tool" content (tc_id tool_call)).

Fixpoint handle_tool_call_loop (results : list tool_message)
  (tool_calls : list tool_call) : M (list tool_message) :=
  match tool_calls with
  | [] => ret results
  | tool_call :: rest =>
      let* m := run_tool_call tool_call in
      handle_tool_call_loop (results ++ [m]) rest
  end.

Definition handle_tool_call (tool_calls : list tool_call)
  : M (list tool_message) :=
  handle_tool_call_loop [] tool_calls.

(** *** [Me.system_prompt] *)

Definition system_prompt (self : Me) : string :=
  "You are acting as " +:+ name self +:+ ". " +:+ nl
  +:+ "You are answering questions on " +:+ name self
  +:+ "'s website, particularly about career, background, skills, and experience. "
  +:+ nl
  +:+ "You must represent " +:+ name self
  +:+ " professionally and faithfully." +:+ nl
  +:+ nl
  +:+ "If you don't know an answer, use the `record_unknown_question` tool to log it."
  +:+ nl
  +:+ "If the user seems interested, ask for their email and log it with `record_user_details`."
  +:+ nl
  +:+ nl
  +:+ "Here is background context:" +:+ nl
  +:+ nl
  +:+ "## Summary:" +:+ nl
  +:+ summary self +:+ nl
  +:+ nl
  +:+ "## LinkedIn Profile:" +:+ nl
  +:+ linkedin self +:+ nl
  +:+ nl
  +:+ "Stay professional and engaging, as if talking to a potential client or employer."
  +:+ nl.

(** *** [Me.chat] *)

(** The list built before the loop. *)
Definition initial_messages (self : Me) (message : string)
  (history : list msg) : list msg :=
  [Plain "system" (system_prompt self)] ++ history ++ [Plain "user" message].

(** One pass through the body of [while not done]. *)
Inductive step :=
| Continue (messages : list msg) (w : world)
| Return (answer : option string) (w : world)
| Abort (e : exn) (w : world).

Definition round (messages : list msg) (w : world) : step :=
  let w1 := called w in
  match completions_create E (api_calls w) messages with
  | Raise e => Abort e w1
  | Ok response =>
      match choices response with
      | [] => Abort IndexError w1
      | choice :: _ =>
          if String.eqb (finish_reason choice) "tool_calls" then
            match tool_calls (message choice) with
            | None => Abort TypeError w1
            | Some calls =>
                match handle_tool_call calls w1 with
                | (Raise e, w2) => Abort e w2
                | (Ok results, w2) =>
                    Continue (messages ++ [Assistant (message choice)]
                                ++ map Tool results) w2
                end
            end
          else Return (content (message choice)) w1
      end
  end.

(** The loop has no bound of its own; [fuel] bounds the number of
    passes the model follows, and [None] is a loop still running when
    it is used up. *)
Fixpoint chat_loop (fuel : nat) (messages : list msg) (w : world)
  : option (res (option string) * world) :=
  match fuel with
  | 0 => None
  | S fuel =>
      match round messages w with
      | Continue messages' w' => chat_loop fuel messages' w'
      | Return answer w' => Some (Ok answer, w')
      | Abort e w' => Some (Raise e, w')
      end
  end.

Definition chat (fuel : nat) (self : Me) (message : string)
  (history : list msg) (w : world) : option (res (option string) * world) :=
  chat_loop fuel (initial_messages self message history) w.

End Module.

(** ** The namespace of the module *)

Definition record_user_details_json : pyval :=
  VDict [
    ("name", VStr "record_user_details");
    ("description", VStr "Record that a user is interested in being in touch and provided an email address");
    ("parameters", VDict [
      ("type", VStr "object");
      ("properties", VDict [
        ("email", VDict [("type", VStr "string");
                         ("description", VStr "The email address of this user")]);
        ("name", VDict [("type", VStr "string");
                        ("description", VStr "The user's name, if provided")]);
        ("notes", VDict [("type", VStr "string");
                         ("description", VStr "Additional context or notes")])]);
      ("required", VList [VStr "email"]);
      ("additionalProperties", VBool false)])].

Definition record_unknown_question_json : pyval :=
  VDict [
    ("name", VStr "record_unknown_question");
    ("description", VStr "Record any question that couldn't be answered");
    ("parameters", VDict [
      ("type", VStr "object");
      ("properties", VDict [
        ("question", VDict [("type", VStr "string");
                            ("description", VStr "The unknown question")])]);
      ("required", VList [VStr "question"]);
      ("additionalProperties", VBool false)])].

Definition tools : pyval :=
  VList [
    VDict [("type", VStr "function"); ("function", record_user_details_json)];
    VDict [("type", VStr "function"); ("function", record_unknown_question_json)]].

(** The names bound at the top level of [app.py] when it runs as a
    script, in the order of the statements that bind them, followed by
    the two names of the interpreter that the source settles: [__name__],
    tested on the last lines, and [__doc__], which is [None] since the
    file starts with an import and not with a docstring. *)
Definition app_globals : gmap string pyval :=
  list_to_map [
    ("load_dotenv", VExternal "load_dotenv");
    ("OpenAI", VExternal "OpenAI");
    ("json", VModule "json");
    ("os", VModule "os");
    ("requests", VModule "requests");
    ("PdfReader", VExternal "PdfReader");
    ("gr", VModule "gradio");
    ("push", VFunction Fpush);
    ("record_user_details", VFunction Frecord_user_details);
    ("record_unknown_question", VFunction Frecord_unknown_question);
    ("record_user_details_json", record_user_details_json);
    ("record_unknown_question_json", record_unknown_question_json);
    ("tools", tools);
    ("Me", VClassMe);
    ("me", VObject "Me");
    ("__name__", VStr "__main__");
    ("__doc__", VNone)].

(** ** An environment to run the module in *)

(** A decoder for the JSON texts that are one object whose values are
    strings without escapes, with white space between the tokens; on
    these texts, and on texts that are not JSON at all, it answers as
    [json.loads] does.  A key that comes again keeps its place and takes
    the later value. *)
Inductive scan :=
| AtStart
| AfterBrace
| InKey (key : string)
| AfterKey (key : string)
| BeforeValue (key : string)
| InValue (key value : string)
| AfterValue
| AfterComma
| AtEnd
| Broken.

Definition is_space (c : ascii) : bool :=
  let n := nat_of_ascii c in
  (Nat.eqb n 32 || Nat.eqb n 9 || Nat.eqb n 10 || Nat.eqb n 13)%bool.

Definition is_quote (c : ascii) : bool := Nat.eqb (nat_of_ascii c) 34.

Definition is_plain (c : ascii) : bool :=
  let n := nat_of_ascii c in
  (Nat.leb 32 n && negb (Nat.eqb n 34) && negb (Nat.eqb n 92))%bool.

Fixpoint dict_set (key : string) (v : pyval) (kvs : list (string * pyval))
  : list (string * pyval) :=
  match kvs with
  | [] => [(key, v)]
  | (k, x) :: rest =>
      if String.eqb k key then (k, v) :: rest
      else (k, x) :: dict_set key v rest
  end.

Definition scan_step (st : scan * list (string * pyval)) (c : ascii)
  : scan * list (string * pyval) :=
  let (state, kvs) := st in
  let on c' := Ascii.eqb c c' in
  match state with
  | AtStart =>
      if is_space c then (AtStart, kvs)
      else if on "{"%char then (AfterBrace, kvs) else (Broken, kvs)
  | AfterBrace =>
      if is_space c then (AfterBrace, kvs)
      else if is_quote c then (InKey "", kvs)
      else if on "}"%char then (AtEnd, kvs) else (Broken, kvs)
  | InKey key =>
      if is_quote c then (AfterKey key, kvs)
      else if is_plain c then (InKey (key +:+ String c ""), kvs)
      else (Broken, kvs)
  | AfterKey key =>
      if is_space c then (AfterKey key, kvs)
      else if on ":"%char then (BeforeValue key, kvs) else (Broken, kvs)
  | BeforeValue key =>
      if is_space c then (BeforeValue key, kvs)
      else if is_quote c then (InValue key "", kvs) else (Broken, kvs)
  | InValue key value =>
      if is_quote c then (AfterValue, dict_set key (VStr value) kvs)
      else if is_plain c then (InValue key (value +:+ String c ""), kvs)
      else (Broken, kvs)
  | AfterValue =>
      if is_space c then (AfterValue, kvs)
      else if on ","%char then (AfterComma, kvs)
      else if on "}"%char then (AtEnd, kvs) else (Broken, kvs)
  | AfterComma =>
      if is_space c then (AfterComma, kvs)
      else if is_quote c then (InKey "", kvs) else (Broken, kvs)
  | AtEnd => if is_space c then (AtEnd, kvs) else (Broken, kvs)
  | Broken => (Broken, kvs)
  end.

Fixpoint scan_all (st : scan * list (string * pyval)) (s : string)
  : scan * list (string * pyval) :=
  match s with
  | EmptyString => st
  | String c rest => scan_all (scan_step st c) rest
  end.

Definition flat_loads (s : string) : option pyval :=
  match scan_all (AtStart, []) s with
  | (AtEnd, kvs) => Some (VDict kvs)
  | _ => None
  end.

(** [repr] of the scalars; the decoder above yields strings only, which
    [format] does not pass to [repr]. *)
Definition scalar_repr (v : pyval) : string :=
  match v with
  | VNone => "None"
  | VBool true => "True"
  | VBool false => "False"
  | VInt z => decimal z
  | _ => "<object>"
  end.

(** An endpoint that answers its n-th call with the n-th entry of a
    script, whatever the messages, and fails once the script is over. *)
Definition scripted (script : list completion) (n : nat) (messages : list msg)
  : res completion :=
  match script !! n with
  | Some response => Ok response
  | None => Raise (Exception "openai.APIConnectionError")
  end.

(** The module in a process where the notification service behaves as
    [post] and the endpoint follows [script]. *)
Definition run_env (post : world -> pyval -> post_outcome)
  (script : list completion) : env :=
  {| json_loads := flat_loads;
     py_repr := scalar_repr;
     requests_post := post;
     completions_create := scripted script;
     external_call := fun _ _ _ => Raise TypeError;
     Me_init := Some (Exception "ValueError");
     globals := app_globals |}.

Definition delivered : world -> pyval -> post_outcome :=
  fun _ _ => Responded 200.
Definition rejected : world -> pyval -> post_outcome :=
  fun _ _ => Responded 500.
Definition unreachable : world -> pyval -> post_outcome :=
  fun _ _ => Failed (Exception "requests.exceptions.ConnectionError").

Definition w0 : world := World [] [] 0.

Definition stop (text : option string) : completion :=
  Completion [Choice "stop" (CompletionMessage text None)].

Definition requests_tools (calls : list tool_call) : completion :=
  Completion [Choice "tool_calls" (CompletionMessage None (Some calls))].

Definition me : Me := MkMe "Mahad Habib Rana" "" "".

(** ** Vocabulary of the statements *)

(** The dict both tools return. *)
Definition recorded : pyval := VDict [("recorded", VStr "ok")].

(** [contains part s]: [part] occurs in [s]. *)
Definition contains (part s : string) : Prop :=
  exists before after, s = before +:+ part +:+ after.

(** [m] is a tool result for the request [tool_call]. *)
Definition answers (tool_call : tool_call) (m : tool_message) : Prop :=
  tm_role m = "tool" /\ tool_call_id m = tc_id tool_call.

(** How many of [messages] have the role [role]. *)
Definition count_role (role : string) (messages : list msg) : nat :=
  length (List.filter (fun m => String.eqb (role_of m) role) messages).

(** The payload of the call decodes, and [globals().get] finds nothing
    true under its name. *)
Definition unresolved (E : env) (tool_call : tool_call) : Prop :=
  is_Some (json_loads E (tc_arguments tool_call))
  /\ truthy (dict_get (globals E) (tc_name tool_call)) = false.

(** The message appended for a call that is not resolved. *)
Definition empty_result (tool_call : tool_call) : tool_message :=
  ToolMessage "tool" "{}" (tc_id tool_call).

(** The world after the names of [tool_calls] were printed, and nothing
    else happened. *)
Definition announced (w : world) (tool_calls : list tool_call) : world :=
  World (posts w)
    (stdout w ++ map (fun tc => "Tool called: " +:+ tc_name tc) tool_calls)
    (api_calls w).

(** The object called is one of the two notification tools, the
    keywords fit its signature, [text] is the text it builds from them,
    and the send of that text in [w] raises [e]. *)
Definition failed_send (E : env) (tool : pyval)
  (kwargs : list (string * pyval)) (w : world) (text : pyval) (e : exn)
  : Prop :=
  requests_post E w text = Failed e
  /\ ((tool = VFunction Frecord_user_details
       /\ only_keys ["email"; "name"; "notes"] kwargs = true
       /\ exists email,
            kwarg "email" kwargs = Some email
            /\ text
               = VStr ("Recording "
                       +:+ format E (default (VStr "Name not provided")
                                       (kwarg "name" kwargs))
                       +:+ " with email " +:+ format E email +:+ " and notes "
                       +:+ format E (default (VStr "not provided")
                                       (kwarg "notes" kwargs))))
      \/ (tool = VFunction Frecord_unknown_question
          /\ only_keys ["question"] kwargs = true
          /\ exists question,
               kwarg "question" kwargs = Some question
               /\ text = VStr ("Recording " +:+ format E question))).

Section Rounds.

Context (E : env).

(** [tool_rounds k messages w messages' w']: from [messages] and [w],
    the endpoint answers [k] rounds in a row with finish reason
    "tool_calls", each time the calls are handled without raising, and
    the loop is then about to call the endpoint with [messages'] in
    [w']. *)
Inductive tool_rounds : nat -> list msg -> world -> list msg -> world -> Prop :=
| tool_rounds_O messages w : tool_rounds 0 messages w messages w
| tool_rounds_S k messages w response choice others calls results w2
    messages' w' :
    completions_create E (api_calls w) messages = Ok response ->
    choices response = choice :: others ->
    finish_reason choice = "tool_calls" ->
    tool_calls (message choice) = Some calls ->
    handle_tool_call E calls (called w) = (Ok results, w2) ->
    tool_rounds k (messages ++ [Assistant (message choice)] ++ map Tool results)
      w2 messages' w' ->
    tool_rounds (S k) messages w messages' w'.

End Rounds.

(** ** Sample calls and endpoints *)

(** JSON texts of one key and one string, written without escapes. *)
Definition object1 (key value : string) : string :=
  "{" +:+ dquote +:+ key +:+ dquote +:+ ": "
  +:+ dquote +:+ value +:+ dquote +:+ "}".

Definition recorded_json : string := object1 "recorded" "ok".

(** The call of the second scenario of the specification. *)
Definition question_call : tool_call :=
  ToolCall "call_1" "record_unknown_question"
    (object1 "question" "Do you know Rust?").

(** A call to a name the module does not bind. *)
Definition unknown_call : tool_call := ToolCall "call_1" "send_email" "{}".

(** A call whose payload is not JSON. *)
Definition garbled_call : tool_call :=
  ToolCall "call_2" "record_user_details" "not json".

(** An endpoint that asks for the same tool call [k] times and then
    answers. *)
Definition asks (k : nat) : list completion :=
  replicate k (requests_tools [question_call])
  ++ [stop (Some "Logged your question.")].

Ltac run_monad := unfold bind, ret, raise, print in *; simpl in *.

(** ** [Me.__init__] *)

(** What the constructor reads from the process: the environment
    variables, the construction of the client from the key, the pages of
    a PDF file with the outcome of [extract_text] on each, and the
    content of a text file. *)
Record startup := Startup {
  getenv : string -> option string;
  openai_client : string -> res unit;
  pdf_pages : string -> res (list (res (option string)));
  read_file : string -> res string
}.

(** The loop over [reader.pages]: a page whose text is [None] or empty
    adds nothing. *)
Fixpoint read_pages (linkedin : string) (pages : list (res (option string)))
  : res string :=
  match pages with
  | [] => Ok linkedin
  | Raise e :: _ => Raise e
  | Ok text :: rest =>
      match text with
      | Some t =>
          if String.eqb t "" then read_pages linkedin rest
          else read_pages (linkedin +:+ t) rest
      | None => read_pages linkedin rest
      end
  end.

Definition Me__init__ (S : startup) : res Me :=
  match getenv S "GEMINI_API_KEY" with
  | None => Raise (Exception "ValueError")
  | Some gemini_key =>
      if String.eqb gemini_key "" then Raise (Exception "ValueError")
      else
        match openai_client S gemini_key with
        | Raise e => Raise e
        | Ok _ =>
            match pdf_pages S "me/profile.pdf" with
            | Raise e => Raise e
            | Ok pages =>
                match read_pages "" pages with
                | Raise e => Raise e
                | Ok linkedin =>
                    match read_file S "me/summary.txt" with
                    | Raise e => Raise e
                    | Ok summary => Ok (MkMe "Mahad Habib Rana" linkedin summary)
                    end
                end
            end
        end
  end.

(** The texts of pages, one after the other. *)
Fixpoint concat_texts (texts : list (option string)) : string :=
  match texts with
  | [] => ""
  | Some t :: rest => t +:+ concat_texts rest
  | None :: rest => concat_texts rest
  end.

(** ** The declarations of the tools *)

(** [d[key]] on a dict. *)
Definition item (key : string) (d : pyval) : option pyval :=
  match d with
  | VDict kvs => kwarg key kvs
  | _ => None
  end.

(** The entries of the list [tools]. *)
Definition declarations : list pyval :=
  match tools with
  | VList entries => entries
  | _ => []
  end.

Definition declared_name (function : pyval) : option string :=
  match item "name" function with
  | Some (VStr s) => Some s
  | _ => None
  end.

(** The keys of [parameters.properties]. *)
Definition declared_properties (function : pyval) : list string :=
  match item "parameters" function ≫= item "properties" with
  | Some (VDict kvs) => map fst kvs
  | _ => []
  end.

(** The strings of [parameters.required]. *)
Definition declared_required (function : pyval) : list string :=
  match item "parameters" function ≫= item "required" with
  | Some (VList names) =>
      omap (fun v => match v with VStr s => Some s | _ => None end) names
  | _ => []
  end.

(** The keys of a payload fit a declaration: none outside the declared
    properties, and every required one present.  The types of the values
    play no part. *)
Definition conforms (function : pyval) (kwargs : list (string * pyval))
  : bool :=
  (only_keys (declared_properties function) kwargs
   && forallb (fun key => match kwarg key kwargs with Some _ => true | None => false end)
        (declared_required function))%bool.

(** ** Messages appended by the loop *)

(** A sequence of rounds: each is the message of the model carrying its
    tool calls, followed by one result for each call, in their order. *)
Inductive exchanges : list msg -> Prop :=
| exchanges_nil : exchanges []
| exchanges_round m calls results rest :
    tool_calls m = Some calls ->
    Forall2 answers calls results ->
    exchanges rest ->
    exchanges (Assistant m :: map Tool results ++ rest).

Definition tool_called (tool_call : tool_call) : string :=
  "Tool called: " +:+ tc_name tool_call.

(** ** More sample environments *)

(** An endpoint that never stops asking for the same tool call. *)
Definition insistent : env :=
  {| json_loads := flat_loads;
     py_repr := scalar_repr;
     requests_post := delivered;
     completions_create := fun _ _ => Ok (requests_tools [question_call]);
     external_call := fun _ _ _ => Raise TypeError;
     Me_init := Some (Exception "ValueError");
     globals := app_globals |}.

(** A decoder that also knows one JSON text that is not an object. *)
Definition loads_with_list (s : string) : option pyval :=
  if String.eqb s "[1]" then Some (VList [VInt 1]) else flat_loads s.

Definition list_env : env :=
  {| json_loads := loads_with_list;
     py_repr := scalar_repr;
     requests_post := delivered;
     completions_create := scripted [];
     external_call := fun _ _ _ => Raise TypeError;
     Me_init := Some (Exception "ValueError");
     globals := app_globals |}.

(** A process with a key, a profile of three pages, the second of which
    has no text, and a summary. *)
Definition sample_startup : startup :=
  {| getenv := fun key =>
       if String.eqb key "GEMINI_API_KEY" then Some "secret" else None;
     openai_client := fun _ => Ok tt;
     pdf_pages := fun _ => Ok [Ok (Some "Engineer. "); Ok (Some ""); Ok (Some "Ten years.")];
     read_file := fun _ => Ok "A short summary." |}.

(** ** The decoder and the encoder on samples *)

Example json_dumps_recorded :
  json_dumps (VDict [("recorded", VStr "ok")]) = Some recorded_json.
Proof. reflexivity. Qed.

Example flat_loads_question :
  flat_loads (object1 "question" "Do you know Rust?")
  = Some (VDict [("question", VStr "Do you know Rust?")]).
Proof. reflexivity. Qed.

Example flat_loads_garbage : flat_loads "not json" = None.
Proof. reflexivity. Qed.

Example flat_loads_empty : flat_loads "{}" = Some (VDict []).
Proof. reflexivity. Qed.

(** ** Facts about the tool-call loop *)

Section ToolCalls.

Context (E : env).

Lemma push_api_calls text w : api_calls (snd (push E text w)) = api_calls w.
Proof. unfold push. destruct (requests_post E w text); reflexivity. Qed.

Lemma call_api_calls tool arguments w :
  api_calls (snd (call E tool arguments w)) = api_calls w.
Proof.
  unfold call, record_user_details, record_unknown_question.
  destruct arguments; try reflexivity.
  destruct tool as [| | | | | |[]| | | |]; try reflexivity.
  - destruct (only_keys _ _); [|reflexivity].
    destruct (kwarg _ _); [apply push_api_calls|reflexivity].
  - destruct (only_keys _ _); [|reflexivity].
    destruct (kwarg "email" _); [|reflexivity].
    unfold bind. pose proof (push_api_calls
      (VStr ("Recording " +:+ format E (default (VStr "Name not provided") (kwarg "name" kvs))
             +:+ " with email " +:+ format E p +:+ " and notes "
             +:+ format E (default (VStr "not provided") (kwarg "notes" kvs)))) w) as H.
    destruct (push E _ w) as [[r|e] w1]; exact H.
  - destruct (only_keys _ _); [|reflexivity].
    destruct (kwarg _ _); [|reflexivity].
    unfold bind. pose proof (push_api_calls (VStr ("Recording " +:+ format E p)) w) as H.
    destruct (push E _ w) as [[r|e] w1]; exact H.
  - destruct kvs; [|reflexivity]. destruct (Me_init E); reflexivity.
Qed.

Lemma run_tool_call_api_calls tool_call w :
  api_calls (snd (run_tool_call E tool_call w)) = api_calls w.
Proof.
  unfold run_tool_call. run_monad.
  destruct (json_loads E _) as [arguments|]; [|reflexivity]. simpl.
  set (w1 := World _ _ _).
  destruct (truthy _).
  - pose proof (call_api_calls (dict_get (globals E) (tc_name tool_call))
                  arguments w1) as H.
    destruct (call E _ arguments w1) as [[r|e] w2]; simpl in *; [|exact H].
    destruct (json_dumps r); exact H.
  - reflexivity.
Qed.

Lemma run_tool_call_answers tool_call w m w' :
  run_tool_call E tool_call w = (Ok m, w') -> answers tool_call m.
Proof.
  unfold run_tool_call. run_monad.
  destruct (json_loads E _) as [arguments|]; [|discriminate]. simpl.
  destruct (truthy _).
  - destruct (call E _ arguments _) as [[r|e] w2]; [|discriminate].
    destruct (json_dumps r); [|discriminate].
    intros [= <- _]. split; reflexivity.
  - simpl. intros [= <- _]. split; reflexivity.
Qed.

(** The loop either goes through every call, adding one message for
    each in their order, or stops at the first call that raises. *)
Lemma handle_tool_call_loop_spec tool_calls : forall results w,
  match handle_tool_call_loop E results tool_calls w with
  | (Ok all, _) =>
      exists added, all = results ++ added /\ Forall2 answers tool_calls added
  | (Raise e, w') =>
      exists before tool_call after w1,
        tool_calls = before ++ tool_call :: after
        /\ run_tool_call E tool_call w1 = (Raise e, w')
  end.
Proof.
  induction tool_calls as [|tool_call rest IH]; intros results w; simpl.
  - exists []. split; [symmetry; apply app_nil_r | constructor].
  - unfold bind.
    destruct (run_tool_call E tool_call w) as [[m|e] w1] eqn:Hrun.
    + specialize (IH (results ++ [m]) w1).
      destruct (handle_tool_call_loop E (results ++ [m]) rest w1) as [[all|e] w2].
      * destruct IH as (added & -> & Hall).
        exists (m :: added). split.
        -- rewrite <- app_assoc. reflexivity.
        -- constructor; [eapply run_tool_call_answers; eassumption | exact Hall].
      * destruct IH as (before & tc & after & w3 & -> & Hraise).
        exists (tool_call :: before), tc, after, w3. split; [reflexivity | exact Hraise].
    + exists [], tool_call, rest, w. split; [reflexivity | exact Hrun].
Qed.

Lemma handle_tool_call_loop_api_calls tool_calls : forall results w,
  api_calls (snd (handle_tool_call_loop E results tool_calls w)) = api_calls w.
Proof.
  induction tool_calls as [|tool_call rest IH]; intros results w; simpl.
  - reflexivity.
  - unfold bind. pose proof (run_tool_call_api_calls tool_call w) as H.
    destruct (run_tool_call E tool_call w) as [[m|e] w1]; simpl in H.
    + rewrite IH. exact H.
    + exact H.
Qed.

Lemma handle_tool_call_api_calls tool_calls w :
  api_calls (snd (handle_tool_call E tool_calls w)) = api_calls w.
Proof. apply handle_tool_call_loop_api_calls. Qed.

Lemma handle_tool_call_ok tool_calls w results w' :
  handle_tool_call E tool_calls w = (Ok results, w') ->
  Forall2 answers tool_calls results.
Proof.
  intros H. pose proof (handle_tool_call_loop_spec tool_calls [] w) as S.
  unfold handle_tool_call in H. rewrite H in S.
  destruct S as (added & -> & Hall). exact Hall.
Qed.

End ToolCalls.

Section ToolCallsAppend.

Context (E : env).

Lemma handle_tool_call_loop_app before after : forall results w,
  handle_tool_call_loop E results (before ++ after) w
  = match handle_tool_call_loop E results before w with
    | (Ok done, w1) => handle_tool_call_loop E done after w1
    | (Raise e, w1) => (Raise e, w1)
    end.
Proof.
  induction before as [|tool_call rest IH]; intros results w; simpl.
  - reflexivity.
  - unfold bind. destruct (run_tool_call E tool_call w) as [[m|e] w1].
    + apply IH.
    + reflexivity.
Qed.

(** A payload that does not decode stops the body of the loop before
    anything else happens. *)
Lemma run_tool_call_undecodable tool_call w :
  json_loads E (tc_arguments tool_call) = None ->
  run_tool_call E tool_call w = (Raise JSONDecodeError, w).
Proof. intros H. unfold run_tool_call. rewrite H. reflexivity. Qed.

(** A name that [globals().get] maps to nothing true is not called. *)
Lemma run_tool_call_unresolved tool_call arguments w :
  json_loads E (tc_arguments tool_call) = Some arguments ->
  truthy (dict_get (globals E) (tc_name tool_call)) = false ->
  run_tool_call E tool_call w
  = (Ok (ToolMessage "tool" "{}" (tc_id tool_call)),
     World (posts w) (stdout w ++ ["Tool called: " +:+ tc_name tool_call])
       (api_calls w)).
Proof.
  intros Hload Hfalse. unfold run_tool_call. rewrite Hload. run_monad.
  rewrite Hfalse. reflexivity.
Qed.

(** A name that [globals().get] maps to something true is called with
    the decoded payload. *)
Lemma run_tool_call_resolved tool_call arguments w :
  json_loads E (tc_arguments tool_call) = Some arguments ->
  truthy (dict_get (globals E) (tc_name tool_call)) = true ->
  run_tool_call E tool_call w
  = (let* _ := print ("Tool called: " +:+ tc_name tool_call) in
     let* result := call E (dict_get (globals E) (tc_name tool_call)) arguments in
     let* content :=
       match json_dumps result with
       | Some s => ret s
       | None => raise TypeError
       end in
     ret (ToolMessage "tool" content (tc_id tool_call))) w.
Proof.
  intros Hload Htrue. unfold run_tool_call. rewrite Hload. run_monad.
  rewrite Htrue. reflexivity.
Qed.

End ToolCallsAppend.

(** ** Facts about the conversation loop *)

Section Loop.

Context (E : env).

Lemma round_tool_calls messages w response choice others calls :
  completions_create E (api_calls w) messages = Ok response ->
  choices response = choice :: others ->
  finish_reason choice = "tool_calls" ->
  tool_calls (message choice) = Some calls ->
  round E messages w
  = match handle_tool_call E calls (called w) with
    | (Raise e, w2) => Abort e w2
    | (Ok results, w2) =>
        Continue (messages ++ [Assistant (message choice)] ++ map Tool results) w2
    end.
Proof.
  intros Hcreate Hchoices Hfinish Hcalls. unfold round.
  rewrite Hcreate, Hchoices, Hfinish, Hcalls. reflexivity.
Qed.

Lemma round_answer messages w response choice others :
  completions_create E (api_calls w) messages = Ok response ->
  choices response = choice :: others ->
  finish_reason choice <> "tool_calls" ->
  round E messages w = Return (content (message choice)) (called w).
Proof.
  intros Hcreate Hchoices Hfinish. unfold round.
  rewrite Hcreate, Hchoices.
  destruct (String.eqb_spec (finish_reason choice) "tool_calls"); [contradiction|].
  reflexivity.
Qed.

Lemma chat_loop_tool_rounds k messages w messages' w' :
  tool_rounds E k messages w messages' w' ->
  forall fuel, chat_loop E (k + fuel) messages w = chat_loop E fuel messages' w'.
Proof.
  induction 1 as [|k messages w response choice others calls results w2
                   messages' w' Hcreate Hchoices Hfinish Hcalls Hhandle _ IH];
    intros fuel; simpl.
  - reflexivity.
  - rewrite (round_tool_calls _ _ _ _ _ _ Hcreate Hchoices Hfinish Hcalls), Hhandle.
    apply IH.
Qed.

Lemma tool_rounds_api_calls k messages w messages' w' :
  tool_rounds E k messages w messages' w' -> api_calls w' = api_calls w + k.
Proof.
  induction 1 as [|k messages w response choice others calls results w2
                   messages' w' _ _ _ _ Hhandle _ IH].
  - lia.
  - pose proof (handle_tool_call_api_calls E calls (called w)) as H.
    rewrite Hhandle in H. simpl in H. lia.
Qed.

(** The loop only appends, and what it appends is the message of the
    model followed by tool results. *)
Lemma tool_rounds_messages k messages w messages' w' :
  tool_rounds E k messages w messages' w' ->
  exists added,
    messages' = messages ++ added
    /\ Forall (fun m => role_of m = "assistant" \/ role_of m = "tool") added.
Proof.
  induction 1 as [|k messages w response choice others calls results w2
                   messages' w' _ _ _ _ Hhandle _ IH].
  - exists []. split; [symmetry; apply app_nil_r | constructor].
  - destruct IH as (added & -> & Hadded).
    exists ([Assistant (message choice)] ++ map Tool results ++ added).
    split; [rewrite <- !app_assoc; reflexivity|].
    apply Forall_app. split; [repeat constructor|].
    apply Forall_app. split; [|exact Hadded].
    apply handle_tool_call_ok in Hhandle.
    clear -Hhandle. induction Hhandle as [|tc m tcs ms [Hrole _] _ IH]; simpl.
    + constructor.
    + constructor; [right; exact Hrole | exact IH].
Qed.

Lemma chat_loop_more_fuel fuel : forall messages w outcome extra,
  chat_loop E fuel messages w = Some outcome ->
  chat_loop E (fuel + extra) messages w = Some outcome.
Proof.
  induction fuel as [|fuel IH]; intros messages w outcome extra; simpl.
  - discriminate.
  - destruct (round E messages w); auto.
Qed.

End Loop.

(** ** The notification tools *)

Lemma append_assoc (a b c : string) : (a +:+ b) +:+ c = a +:+ (b +:+ c).
Proof.
  induction a as [|x a IH]; [reflexivity | exact (f_equal (String x) IH)].
Qed.

Section Tools.

Context (E : env).

(** A tool that has built its text makes one send and answers by the
    outcome of that send alone. *)
Lemma push_then_recorded text w :
  (let* _ := push E text in ret recorded) w
  = (match requests_post E w text with
     | Responded _ => Ok recorded
     | Failed e => Raise e
     end,
     World (posts w ++ [text]) (stdout w) (api_calls w)).
Proof.
  unfold bind, push, ret. destruct (requests_post E w text); reflexivity.
Qed.

End Tools.

(** C5, as amended.  Each of the two tools makes exactly one send.  When
    the send ends with an HTTP response, whatever its status code, the
    tool returns [{"recorded": "ok"}]; when the send raises, the tool
    raises the same exception, and nothing catches it: in whatever round
    the call is handled, [handle_tool_call] raises it instead of
    returning results, and [chat] raises it instead of returning an
    answer. *)
Theorem tool_result_follows_send (E : env) (w : world) :
  (forall email name notes,
     let text :=
       VStr ("Recording " +:+ format E (default (VStr "Name not provided") name)
             +:+ " with email " +:+ format E email +:+ " and notes "
             +:+ format E (default (VStr "not provided") notes)) in
     record_user_details E email name notes w
     = (match requests_post E w text with
        | Responded _ => Ok recorded
        | Failed e => Raise e
        end,
        World (posts w ++ [text]) (stdout w) (api_calls w)))
  /\ (forall question,
        let text := VStr ("Recording " +:+ format E question) in
        record_unknown_question E question w
        = (match requests_post E w text with
           | Responded _ => Ok recorded
           | Failed e => Raise e
           end,
           World (posts w ++ [text]) (stdout w) (api_calls w)))
  /\ (forall (k : nat) (self : Me) (question : string) (history : list msg)
             (messages' : list msg) (w' : world) (response : completion)
             (first : choice) (others : list choice)
             (before after : list tool_call) (tool_call : tool_call)
             (results : list tool_message) (w1 : world)
             (kwargs : list (string * pyval)) (text : pyval) (e : exn)
             (fuel : nat),
        tool_rounds E k (initial_messages self question history) w messages' w' ->
        completions_create E (api_calls w') messages' = Ok response ->
        choices response = first :: others ->
        finish_reason first = "tool_calls" ->
        tool_calls (message first) = Some (before ++ tool_call :: after) ->
        handle_tool_call E before (called w') = (Ok results, w1) ->
        json_loads E (tc_arguments tool_call) = Some (VDict kwargs) ->
        failed_send E (dict_get (globals E) (tc_name tool_call)) kwargs
          (World (posts w1) (stdout w1 ++ [tool_called tool_call]) (api_calls w1))
          text e ->
        k < fuel ->
        let w2 :=
          World (posts w1 ++ [text]) (stdout w1 ++ [tool_called tool_call])
            (api_calls w1) in
        run_tool_call E tool_call w1 = (Raise e, w2)
        /\ handle_tool_call E (before ++ tool_call :: after) (called w')
           = (Raise e, w2)
        /\ chat E fuel self question history w = Some (Raise e, w2)).
Proof.
  split; [|split]; [intros; apply push_then_recorded .. |].
  intros k self question history messages' w' response first others before
    after tool_call results w1 kwargs text e fuel Hrounds Hcreate Hchoices
    Hfinish Hcalls Hbefore Hload [Hpost Htool] Hfuel w2.
  assert (truthy (dict_get (globals E) (tc_name tool_call)) = true
          /\ forall w3,
               requests_post E w3 text = Failed e ->
               call E (dict_get (globals E) (tc_name tool_call)) (VDict kwargs) w3
               = (Raise e, World (posts w3 ++ [text]) (stdout w3) (api_calls w3)))
    as [Htrue Hcall].
  { destruct Htool as [(-> & Hkeys & email & Hemail & ->)
                      | (-> & Hkeys & asked & Hasked & ->)];
      (split; [reflexivity|]); intros w3 Hfail; unfold call;
      rewrite Hkeys; [rewrite Hemail | rewrite Hasked];
      [unfold record_user_details | unfold record_unknown_question];
      rewrite push_then_recorded, Hfail; reflexivity. }
  assert (run_tool_call E tool_call w1 = (Raise e, w2)) as Hrun.
  { rewrite (run_tool_call_resolved E tool_call _ w1 Hload Htrue).
    unfold bind at 1. unfold print. cbv beta iota. unfold bind at 1.
    fold (tool_called tool_call). rewrite (Hcall _ Hpost). reflexivity. }
  assert (handle_tool_call E (before ++ tool_call :: after) (called w')
          = (Raise e, w2)) as Hraise.
  { unfold handle_tool_call in *. rewrite handle_tool_call_loop_app, Hbefore.
    simpl. unfold bind. rewrite Hrun. reflexivity. }
  split; [exact Hrun|]. split; [exact Hraise|].
  unfold chat. replace fuel with (k + S (fuel - S k)) by lia.
  rewrite (chat_loop_tool_rounds E _ _ _ _ _ Hrounds). simpl.
  rewrite (round_tool_calls E _ _ _ _ _ _ Hcreate Hchoices Hfinish Hcalls), Hraise.
  reflexivity.
Qed.

Lemma tool_result_follows_send_witness :
  chat (run_env unreachable
          [requests_tools [question_call]; stop (Some "Logged your question.")])
    5 me "Do you know Rust?" [] w0
  = Some (Raise (Exception "requests.exceptions.ConnectionError"),
          World [VStr "Recording Do you know Rust?"]
            ["Tool called: record_unknown_question"] 1).
Proof.
  apply (proj2 (proj2 (tool_result_follows_send
           (run_env unreachable
              [requests_tools [question_call];
               stop (Some "Logged your question.")]) w0))
           0 me "Do you know Rust?" [] (initial_messages me "Do you know Rust?" [])
           w0 (requests_tools [question_call])
           (Choice "tool_calls" (CompletionMessage None (Some [question_call])))
           [] [] [] question_call [] (World [] [] 1)
           [("question", VStr "Do you know Rust?")]
           (VStr "Recording Do you know Rust?")
           (Exception "requests.exceptions.ConnectionError") 5).
  - apply tool_rounds_O.
  - reflexivity.
  - reflexivity.
  - reflexivity.
  - reflexivity.
  - reflexivity.
  - reflexivity.
  - split; [reflexivity|]. right.
    split; [reflexivity|]. split; [reflexivity|].
    exists (VStr "Do you know Rust?"). split; reflexivity.
  - lia.
Defined.

(** C5, as stated, fails where the notification service cannot be
    reached: [requests.post] raises and so does the tool. *)
Lemma send_failure_not_swallowed :
  ~ (exists w',
       record_user_details (run_env unreachable []) (VStr "a@x.com") None None w0
       = (Ok recorded, w'))
  /\ ~ (exists w',
          record_unknown_question (run_env unreachable [])
            (VStr "Do you know Rust?") w0
          = (Ok recorded, w')).
Proof.
  split; intros [w' H]; vm_compute in H; discriminate H.
Qed.

(** A send that the service answers with an error status changes
    nothing for the tool. *)
Example rejected_send_still_recorded :
  record_unknown_question (run_env rejected []) (VStr "Do you know Rust?") w0
  = (Ok recorded, World [VStr "Recording Do you know Rust?"] [] 0).
Proof. reflexivity. Qed.

(** The exception of a failed send leaves [chat] as well. *)
Example send_failure_reaches_caller :
  chat (run_env unreachable
          [requests_tools [ToolCall "call_1" "record_unknown_question"
                             (object1 "question" "Do you know Rust?")];
           stop (Some "Logged your question.")])
    5 me "Do you know Rust?" [] w0
  = Some (Raise (Exception "requests.exceptions.ConnectionError"),
          World [VStr "Recording Do you know Rust?"]
            ["Tool called: record_unknown_question"] 1).
Proof. vm_compute. reflexivity. Qed.

(** C8, as amended.  A call of [record_user_details] with an email string
    and neither name nor notes makes exactly one send, of the text
    "Recording Name not provided with email <email> and notes not
    provided", which contains both placeholders and the email as given;
    it returns [{"recorded": "ok"}] when that send ends with a response
    and raises when the send raises. *)
Theorem record_user_details_defaults (E : env) (email : string) (w : world) :
  let text :=
    "Recording Name not provided with email " +:+ email
    +:+ " and notes not provided" in
  record_user_details E (VStr email) None None w
  = (match requests_post E w (VStr text) with
     | Responded _ => Ok recorded
     | Failed e => Raise e
     end,
     World (posts w ++ [VStr text]) (stdout w) (api_calls w))
  /\ contains "Name not provided" text
  /\ contains "notes not provided" text
  /\ contains email text.
Proof.
  intros text. split; [|split; [|split]].
  - apply push_then_recorded.
  - exists "Recording ", (" with email " +:+ email +:+ " and notes not provided").
    reflexivity.
  - exists ("Recording Name not provided with email " +:+ email +:+ " and "), "".
    unfold text. rewrite !append_assoc. reflexivity.
  - exists "Recording Name not provided with email ", " and notes not provided".
    reflexivity.
Qed.

(** C8, as stated, fails where the send raises: the function does not
    return. *)
Lemma record_user_details_may_raise :
  ~ (exists w',
       record_user_details (run_env unreachable []) (VStr "a@x.com") None None w0
       = (Ok recorded, w')
       /\ length (posts w') = 1).
Proof.
  intros (w' & H & _). vm_compute in H. discriminate H.
Qed.

(** ** The results of [handle_tool_call] *)

(** C1, as amended.  On a list of N tool calls, [handle_tool_call]
    either returns exactly N messages, each with role "tool" and the id
    of the request at the same position, in the order of the requests,
    or raises what the handling of one of the calls raised. *)
Theorem handle_tool_call_one_result_per_call (E : env)
  (tool_calls : list tool_call) (w : world) :
  match handle_tool_call E tool_calls w with
  | (Ok results, _) =>
      length results = length tool_calls
      /\ Forall2 answers tool_calls results
  | (Raise e, w') =>
      exists before tool_call after w1,
        tool_calls = before ++ tool_call :: after
        /\ run_tool_call E tool_call w1 = (Raise e, w')
  end.
Proof.
  pose proof (handle_tool_call_loop_spec E tool_calls [] w) as S.
  unfold handle_tool_call.
  destruct (handle_tool_call_loop E [] tool_calls w) as [[results|e] w'].
  - destruct S as (added & -> & Hall). simpl. split; [|exact Hall].
    symmetry. eapply Forall2_length. exact Hall.
  - exact S.
Qed.

(** C1, as stated, fails on a call whose payload is not JSON: no message
    is returned for it. *)
Lemma handle_tool_call_undecodable_no_result :
  ~ (exists results w',
       handle_tool_call (run_env delivered [])
         [ToolCall "call_1" "record_unknown_question" "not json"] w0
       = (Ok results, w')
       /\ length results = 1).
Proof.
  intros (results & w' & H & _). vm_compute in H. discriminate H.
Qed.

(** ** A round that ends the turn *)

Section Answer.

Context (E : env).

Lemma chat_answer_after_tool_rounds k self question history w messages' w'
  response choice others fuel :
  tool_rounds E k (initial_messages self question history) w messages' w' ->
  completions_create E (api_calls w') messages' = Ok response ->
  choices response = choice :: others ->
  finish_reason choice <> "tool_calls" ->
  k < fuel ->
  chat E fuel self question history w
  = Some (Ok (content (message choice)), called w').
Proof.
  intros Hrounds Hcreate Hchoices Hfinish Hfuel. unfold chat.
  replace fuel with (k + S (fuel - S k)) by lia.
  rewrite (chat_loop_tool_rounds E _ _ _ _ _ Hrounds). simpl.
  rewrite (round_answer E _ _ _ _ _ Hcreate Hchoices Hfinish). reflexivity.
Qed.

Lemma chat_answer_first_round self question history w response choice others
  fuel :
  completions_create E (api_calls w) (initial_messages self question history)
  = Ok response ->
  choices response = choice :: others ->
  finish_reason choice <> "tool_calls" ->
  chat E (S fuel) self question history w
  = Some (Ok (content (message choice)), called w).
Proof.
  intros Hcreate Hchoices Hfinish.
  apply (chat_answer_after_tool_rounds 0 self question history w
           (initial_messages self question history) w response choice others);
    auto using tool_rounds_O. lia.
Qed.

End Answer.

(** C2.  When the first response of the endpoint has a finish reason
    other than "tool_calls", [chat] returns the content of that response
    as it is; nothing is sent or printed, so no tool ran, and the
    endpoint was called once. *)
Theorem chat_returns_first_answer (E : env) (self : Me) (question : string)
  (history : list msg) (w : world) (response : completion) (first : choice)
  (others : list choice) (fuel : nat) :
  completions_create E (api_calls w) (initial_messages self question history)
  = Ok response ->
  choices response = first :: others ->
  finish_reason first <> "tool_calls" ->
  chat E (S fuel) self question history w
  = Some (Ok (content (message first)),
          World (posts w) (stdout w) (S (api_calls w))).
Proof. apply chat_answer_first_round. Qed.

Lemma chat_returns_first_answer_witness :
  chat (run_env delivered [stop (Some "I have 5 years of experience.")])
    1 me "What is your background?" [] w0
  = Some (Ok (Some "I have 5 years of experience."), World [] [] 1).
Proof.
  apply (chat_returns_first_answer
           (run_env delivered [stop (Some "I have 5 years of experience.")])
           me "What is your background?" [] w0
           (stop (Some "I have 5 years of experience."))
           (Choice "stop" (CompletionMessage (Some "I have 5 years of experience.") None))
           [] 0).
  - reflexivity.
  - reflexivity.
  - discriminate.
Defined.

(** C10.  When the response that ends the turn has a null content,
    [chat] returns that null value and no string. *)
Theorem chat_returns_null_content (E : env) (self : Me) (question : string)
  (history : list msg) (w : world) (response : completion) (first : choice)
  (others : list choice) (fuel : nat) :
  completions_create E (api_calls w) (initial_messages self question history)
  = Ok response ->
  choices response = first :: others ->
  finish_reason first <> "tool_calls" ->
  content (message first) = None ->
  chat E (S fuel) self question history w = Some (Ok None, called w).
Proof.
  intros Hcreate Hchoices Hfinish Hnull. rewrite <- Hnull.
  eapply chat_answer_first_round; eassumption.
Qed.

Lemma chat_returns_null_content_witness :
  chat (run_env delivered [stop None]) 1 me "What is your background?" [] w0
  = Some (Ok None, World [] [] 1).
Proof.
  apply (chat_returns_null_content (run_env delivered [stop None])
           me "What is your background?" [] w0 (stop None)
           (Choice "stop" (CompletionMessage None None)) [] 0).
  - reflexivity.
  - reflexivity.
  - discriminate.
  - reflexivity.
Defined.

(** ** Resolution of tool names *)

Section Resolution.

Context (E : env).

Lemma handle_tool_call_loop_unresolved tool_calls : forall results w,
  Forall (unresolved E) tool_calls ->
  handle_tool_call_loop E results tool_calls w
  = (Ok (results ++ map empty_result tool_calls), announced w tool_calls).
Proof.
  induction tool_calls as [|tool_call rest IH]; intros results w Hall; simpl.
  - unfold ret, announced. simpl. rewrite !app_nil_r. destruct w; reflexivity.
  - apply Forall_cons in Hall as [[[arguments Hload] Hfalse] Hrest].
    unfold bind.
    rewrite (run_tool_call_unresolved E tool_call arguments w Hload Hfalse).
    rewrite (IH _ _ Hrest). unfold announced. simpl.
    rewrite <- !app_assoc. reflexivity.
Qed.

End Resolution.

(** C3, as amended.  A tool call whose payload decodes and whose name
    [globals().get] maps to nothing true (a name that is not bound, or
    bound to a false object) gets the content [{}] without anything
    being called; a response made of such calls makes the loop append
    them and ask the endpoint for another round. *)
Theorem unresolved_tool_yields_empty_object (E : env) :
  (forall tool_call arguments w,
     json_loads E (tc_arguments tool_call) = Some arguments ->
     truthy (dict_get (globals E) (tc_name tool_call)) = false ->
     run_tool_call E tool_call w
     = (Ok (ToolMessage "tool" "{}" (tc_id tool_call)),
        World (posts w) (stdout w ++ ["Tool called: " +:+ tc_name tool_call])
          (api_calls w)))
  /\ (forall messages w response first others calls fuel,
        completions_create E (api_calls w) messages = Ok response ->
        choices response = first :: others ->
        finish_reason first = "tool_calls" ->
        tool_calls (message first) = Some calls ->
        Forall (unresolved E) calls ->
        let messages' :=
          messages ++ [Assistant (message first)]
          ++ map (fun tc => Tool (ToolMessage "tool" "{}" (tc_id tc))) calls in
        round E messages w = Continue messages' (announced (called w) calls)
        /\ chat_loop E (S fuel) messages w
           = chat_loop E fuel messages' (announced (called w) calls)).
Proof.
  split.
  - apply run_tool_call_unresolved.
  - intros messages w response first others calls fuel
      Hcreate Hchoices Hfinish Hcalls Hall messages'.
    assert (round E messages w = Continue messages' (announced (called w) calls))
      as Hround.
    { rewrite (round_tool_calls E _ _ _ _ _ _ Hcreate Hchoices Hfinish Hcalls).
      unfold handle_tool_call.
      rewrite (handle_tool_call_loop_unresolved E calls [] (called w) Hall).
      unfold messages'. simpl. rewrite map_map. reflexivity. }
    split; [exact Hround|]. simpl. rewrite Hround. reflexivity.
Qed.

Lemma unresolved_tool_yields_empty_object_witness :
  run_tool_call (run_env delivered [requests_tools [unknown_call]; stop None])
    unknown_call w0
  = (Ok (ToolMessage "tool" "{}" "call_1"),
     World [] ["Tool called: send_email"] 0)
  /\ chat_loop (run_env delivered [requests_tools [unknown_call]; stop None])
       2 [Plain "user" "hi"] w0
     = chat_loop (run_env delivered [requests_tools [unknown_call]; stop None])
         1 ([Plain "user" "hi"]
            ++ [Assistant (CompletionMessage None (Some [unknown_call]))]
            ++ [Tool (ToolMessage "tool" "{}" "call_1")])
         (World [] ["Tool called: send_email"] 1).
Proof.
  split.
  - apply (proj1 (unresolved_tool_yields_empty_object
                    (run_env delivered [requests_tools [unknown_call]; stop None]))
             unknown_call (VDict []) w0); reflexivity.
  - apply (proj2 (unresolved_tool_yields_empty_object
                    (run_env delivered [requests_tools [unknown_call]; stop None]))
             [Plain "user" "hi"] w0 (requests_tools [unknown_call])
             (Choice "tool_calls" (CompletionMessage None (Some [unknown_call])))
             [] [unknown_call] 1).
    + reflexivity.
    + reflexivity.
    + reflexivity.
    + reflexivity.
    + constructor; [|constructor]. split; [exists (VDict []); reflexivity|].
      vm_compute. reflexivity.
Defined.

(** C3, as stated, fails on names that are no declared tool and yet are
    bound in the module: "push" is called and its [None] becomes the
    content [null]; "tools" is a list, and calling it raises. *)
Lemma undeclared_name_not_empty_object :
  ~ (exists w',
       run_tool_call (run_env delivered [])
         (ToolCall "call_1" "push" (object1 "text" "hi")) w0
       = (Ok (ToolMessage "tool" "{}" "call_1"), w'))
  /\ ~ (exists w',
          run_tool_call (run_env delivered []) (ToolCall "call_1" "tools" "{}") w0
          = (Ok (ToolMessage "tool" "{}" "call_1"), w')).
Proof.
  split; intros [w' H]; vm_compute in H; discriminate H.
Qed.

Example undeclared_push_is_called :
  run_tool_call (run_env delivered [])
    (ToolCall "call_1" "push" (object1 "text" "hi")) w0
  = (Ok (ToolMessage "tool" "null" "call_1"),
     World [VStr "hi"] ["Tool called: push"] 0).
Proof. vm_compute. reflexivity. Qed.

(** C9, as amended.  A name is resolved exactly when it is bound, in
    the namespace of the module, to an object that is true, as every
    function, class and module is: the object is then called with the
    decoded payload, whether it is a declared tool or not.  Any other
    name, bound to a false object or not bound, gets the empty
    result. *)
Theorem tool_resolved_iff_bound_to_true (E : env) (tool_call : tool_call)
  (arguments : pyval) (w : world) :
  json_loads E (tc_arguments tool_call) = Some arguments ->
  let tool := dict_get (globals E) (tc_name tool_call) in
  (truthy tool = true
   <-> exists v, globals E !! tc_name tool_call = Some v /\ truthy v = true)
  /\ (truthy tool = true ->
      run_tool_call E tool_call w
      = (let* _ := print ("Tool called: " +:+ tc_name tool_call) in
         let* result := call E tool arguments in
         let* content :=
           match json_dumps result with
           | Some s => ret s
           | None => raise TypeError
           end in
         ret (ToolMessage "tool" content (tc_id tool_call))) w)
  /\ (truthy tool = false ->
      run_tool_call E tool_call w
      = (Ok (ToolMessage "tool" "{}" (tc_id tool_call)),
         World (posts w) (stdout w ++ ["Tool called: " +:+ tc_name tool_call])
           (api_calls w))).
Proof.
  intros Hload tool. split; [|split].
  - unfold tool, dict_get.
    destruct (globals E !! tc_name tool_call) as [v|]; simpl.
    + split; [intros H; exists v; auto | intros (v' & [= <-] & H); exact H].
    + split; [discriminate | intros (v' & [=] & _)].
  - intros Htrue. apply run_tool_call_resolved; assumption.
  - intros Hfalse. eapply run_tool_call_unresolved; eassumption.
Qed.

Lemma tool_resolved_iff_bound_to_true_witness :
  truthy (dict_get app_globals "push") = true
  /\ run_tool_call (run_env delivered [])
       (ToolCall "call_1" "push" (object1 "text" "hi")) w0
     = (Ok (ToolMessage "tool" "null" "call_1"),
        World [VStr "hi"] ["Tool called: push"] 0).
Proof.
  split; [reflexivity|].
  rewrite (proj1 (proj2 (tool_resolved_iff_bound_to_true (run_env delivered [])
             (ToolCall "call_1" "push" (object1 "text" "hi"))
             (VDict [("text", VStr "hi")]) w0 eq_refl)) eq_refl).
  reflexivity.
Defined.

(** C9, as stated, fails on [__doc__]: the name is bound in the
    namespace, to [None], and it is not resolved. *)
Lemma bound_name_not_resolved :
  ~ (is_Some (app_globals !! "__doc__")
     <-> truthy (dict_get (globals (run_env delivered [])) "__doc__") = true).
Proof.
  intros [H _]. assert (is_Some (app_globals !! "__doc__")) as Hbound.
  { exists VNone. reflexivity. }
  specialize (H Hbound). vm_compute in H. discriminate H.
Qed.

Example bound_to_none_gets_empty_result :
  run_tool_call (run_env delivered []) (ToolCall "call_1" "__doc__" "{}") w0
  = (Ok (ToolMessage "tool" "{}" "call_1"),
     World [] ["Tool called: __doc__"] 0).
Proof. vm_compute. reflexivity. Qed.

(** ** The number of rounds *)

Lemma asks_tool_calls k n :
  n < k -> asks k !! n = Some (requests_tools [question_call]).
Proof.
  intros H. unfold asks. rewrite lookup_app_l by (rewrite length_replicate; lia).
  apply lookup_replicate_2. exact H.
Qed.

Lemma asks_answer k : asks k !! k = Some (stop (Some "Logged your question.")).
Proof.
  unfold asks. rewrite lookup_app_r by (rewrite length_replicate; lia).
  rewrite length_replicate, Nat.sub_diag. reflexivity.
Qed.

Lemma asks_rounds k j : forall messages w,
  api_calls w + j <= k ->
  exists messages' w',
    tool_rounds (run_env delivered (asks k)) j messages w messages' w'.
Proof.
  induction j as [|j IH]; intros messages w Hle.
  - exists messages, w. constructor.
  - destruct (IH (messages
                  ++ [Assistant (CompletionMessage None (Some [question_call]))]
                  ++ map Tool [ToolMessage "tool" recorded_json "call_1"])
                (World (posts w ++ [VStr "Recording Do you know Rust?"])
                   (stdout w ++ ["Tool called: record_unknown_question"])
                   (S (api_calls w))))
      as (messages' & w' & Hrounds); [simpl; lia|].
    exists messages', w'.
    apply (tool_rounds_S _ j messages w (requests_tools [question_call])
             (Choice "tool_calls" (CompletionMessage None (Some [question_call])))
             [] [question_call]
             [ToolMessage "tool" recorded_json "call_1"]
             (World (posts w ++ [VStr "Recording Do you know Rust?"])
                (stdout w ++ ["Tool called: record_unknown_question"])
                (S (api_calls w)))).
    + simpl. unfold scripted. rewrite asks_tool_calls by lia. reflexivity.
    + reflexivity.
    + reflexivity.
    + reflexivity.
    + reflexivity.
    + exact Hrounds.
Qed.

(** C4.  For every k, when the endpoint answers k rounds of a turn with
    finish reason "tool_calls" (each being followed by the next, its
    calls handled) and the round after them with another finish reason,
    [chat] returns the content of that last answer after exactly k + 1
    calls to the endpoint; and no k is too large: for every k there is
    an endpoint that takes the loop through k + 1 calls. *)
Theorem chat_calls_endpoint_once_per_round (k : nat) :
  (forall (E : env) (self : Me) (question : string) (history : list msg)
          (w : world) (messages' : list msg) (w' : world)
          (response : completion) (first : choice) (others : list choice)
          (fuel : nat),
     tool_rounds E k (initial_messages self question history) w messages' w' ->
     completions_create E (api_calls w') messages' = Ok response ->
     choices response = first :: others ->
     finish_reason first <> "tool_calls" ->
     k < fuel ->
     chat E fuel self question history w
     = Some (Ok (content (message first)), called w')
     /\ api_calls (called w') = api_calls w + S k
     /\ chat E k self question history w = None)
  /\ (exists (E : env) (answer : option string) (w' : world),
        api_calls w' = S k
        /\ forall fuel, k < fuel ->
             chat E fuel me "Do you know Rust?" [] w0 = Some (Ok answer, w')).
Proof.
  split.
  - intros E self question history w messages' w' response first others fuel
      Hrounds Hcreate Hchoices Hfinish Hfuel.
    split; [|split].
    + eapply chat_answer_after_tool_rounds; eassumption.
    + simpl. rewrite (tool_rounds_api_calls E _ _ _ _ _ Hrounds). lia.
    + unfold chat. replace k with (k + 0) at 1 by lia.
      rewrite (chat_loop_tool_rounds E _ _ _ _ _ Hrounds). reflexivity.
  - destruct (asks_rounds k k (initial_messages me "Do you know Rust?" []) w0)
      as (messages' & w' & Hrounds); [simpl; lia|].
    pose proof (tool_rounds_api_calls _ _ _ _ _ _ Hrounds) as Hcalls.
    simpl in Hcalls.
    exists (run_env delivered (asks k)), (Some "Logged your question."), (called w').
    split; [simpl; lia|].
    intros fuel Hfuel.
    apply (chat_answer_after_tool_rounds (run_env delivered (asks k)) k me
             "Do you know Rust?" [] w0 messages' w'
             (stop (Some "Logged your question."))
             (Choice "stop" (CompletionMessage (Some "Logged your question.") None))
             []).
    + exact Hrounds.
    + simpl. unfold scripted. rewrite Hcalls, asks_answer. reflexivity.
    + reflexivity.
    + discriminate.
    + exact Hfuel.
Qed.

Lemma chat_calls_endpoint_once_per_round_witness :
  chat (run_env delivered (asks 1)) 2 me "Do you know Rust?" [] w0
  = Some (Ok (Some "Logged your question."),
          World [VStr "Recording Do you know Rust?"]
            ["Tool called: record_unknown_question"] 2).
Proof.
  apply (proj1 (chat_calls_endpoint_once_per_round 1)
           (run_env delivered (asks 1)) me "Do you know Rust?" [] w0
           (initial_messages me "Do you know Rust?" []
            ++ [Assistant (CompletionMessage None (Some [question_call]))]
            ++ map Tool [ToolMessage "tool" recorded_json "call_1"])
           (World [VStr "Recording Do you know Rust?"]
              ["Tool called: record_unknown_question"] 1)
           (stop (Some "Logged your question."))
           (Choice "stop" (CompletionMessage (Some "Logged your question.") None))
           [] 2).
  - eapply (tool_rounds_S _ 0 _ w0 (requests_tools [question_call])
              (Choice "tool_calls" (CompletionMessage None (Some [question_call])))
              [] [question_call]); try reflexivity.
    apply tool_rounds_O.
  - reflexivity.
  - reflexivity.
  - discriminate.
  - lia.
Defined.

(** ** Payloads that do not decode *)

(** Whatever comes before it, a call with an undecodable payload makes
    [handle_tool_call] raise: no list of results comes back. *)
Lemma handle_tool_call_undecodable_raises (E : env)
  (before after : list tool_call) (tool_call : tool_call) (w : world) :
  json_loads E (tc_arguments tool_call) = None ->
  exists e w', handle_tool_call E (before ++ tool_call :: after) w = (Raise e, w').
Proof.
  intros Hload. unfold handle_tool_call. rewrite handle_tool_call_loop_app.
  destruct (handle_tool_call_loop E [] before w) as [[done|e] w1].
  - exists JSONDecodeError, w1. simpl. unfold bind.
    rewrite run_tool_call_undecodable by exact Hload. reflexivity.
  - exists e, w1. reflexivity.
Qed.

(** C6.  When the loop of [handle_tool_call] comes to a tool call whose
    payload does not decode, the handling of that call raises the
    decoding error before anything is printed, called or appended;
    [handle_tool_call] raises it in turn, returning no result, and so
    does [chat]: nothing catches it. *)
Theorem undecodable_payload_fails_turn (E : env) (k : nat) (self : Me)
  (question : string) (history : list msg) (w : world) (messages' : list msg)
  (w' : world) (response : completion) (first : choice) (others : list choice)
  (before after : list tool_call) (tool_call : tool_call)
  (results : list tool_message) (w1 : world) (fuel : nat) :
  tool_rounds E k (initial_messages self question history) w messages' w' ->
  completions_create E (api_calls w') messages' = Ok response ->
  choices response = first :: others ->
  finish_reason first = "tool_calls" ->
  tool_calls (message first) = Some (before ++ tool_call :: after) ->
  handle_tool_call E before (called w') = (Ok results, w1) ->
  json_loads E (tc_arguments tool_call) = None ->
  k < fuel ->
  run_tool_call E tool_call w1 = (Raise JSONDecodeError, w1)
  /\ handle_tool_call E (before ++ tool_call :: after) (called w')
     = (Raise JSONDecodeError, w1)
  /\ chat E fuel self question history w = Some (Raise JSONDecodeError, w1).
Proof.
  intros Hrounds Hcreate Hchoices Hfinish Hcalls Hbefore Hload Hfuel.
  assert (handle_tool_call E (before ++ tool_call :: after) (called w')
          = (Raise JSONDecodeError, w1)) as Hraise.
  { unfold handle_tool_call in *. rewrite handle_tool_call_loop_app, Hbefore.
    simpl. unfold bind. rewrite run_tool_call_undecodable by exact Hload.
    reflexivity. }
  split; [apply run_tool_call_undecodable; exact Hload|].
  split; [exact Hraise|].
  unfold chat. replace fuel with (k + S (fuel - S k)) by lia.
  rewrite (chat_loop_tool_rounds E _ _ _ _ _ Hrounds). simpl.
  rewrite (round_tool_calls E _ _ _ _ _ _ Hcreate Hchoices Hfinish Hcalls), Hraise.
  reflexivity.
Qed.

Lemma undecodable_payload_fails_turn_witness :
  chat (run_env delivered
          [requests_tools [question_call; garbled_call]; stop (Some "Done.")])
    3 me "Do you know Rust?" [] w0
  = Some (Raise JSONDecodeError,
          World [VStr "Recording Do you know Rust?"]
            ["Tool called: record_unknown_question"] 1).
Proof.
  apply (undecodable_payload_fails_turn
           (run_env delivered
              [requests_tools [question_call; garbled_call]; stop (Some "Done.")])
           0 me "Do you know Rust?" [] w0
           (initial_messages me "Do you know Rust?" []) w0
           (requests_tools [question_call; garbled_call])
           (Choice "tool_calls"
              (CompletionMessage None (Some [question_call; garbled_call])))
           [] [question_call] [] garbled_call
           [ToolMessage "tool" recorded_json "call_1"]
           (World [VStr "Recording Do you know Rust?"]
              ["Tool called: record_unknown_question"] 1)
           3).
  - apply tool_rounds_O.
  - reflexivity.
  - reflexivity.
  - reflexivity.
  - reflexivity.
  - reflexivity.
  - reflexivity.
  - lia.
Defined.

(** ** The system message *)

(** C7, as amended.  In every sequence of messages that [chat] passes to
    the endpoint, the first message is the system message built from
    [system_prompt], and the messages with role "system" are one more
    than in the history the caller supplied: there is exactly one when
    the history has none. *)
Theorem system_message_first (E : env) (k : nat) (self : Me)
  (question : string) (history : list msg) (w : world) (messages' : list msg)
  (w' : world) :
  tool_rounds E k (initial_messages self question history) w messages' w' ->
  (exists others, messages' = Plain "system" (system_prompt self) :: others)
  /\ count_role "system" messages' = S (count_role "system" history)
  /\ (count_role "system" history = 0 -> count_role "system" messages' = 1).
Proof.
  intros Hrounds.
  destruct (tool_rounds_messages E _ _ _ _ _ Hrounds) as (added & -> & Hadded).
  assert (count_role "system" added = 0) as Hnone.
  { clear -Hadded. unfold count_role.
    induction Hadded as [|m added Hrole _ IH]; [reflexivity|].
    simpl. destruct Hrole as [-> | ->]; exact IH. }
  assert (count_role "system"
            (initial_messages self question history ++ added)
          = S (count_role "system" history)) as Hcount.
  { unfold count_role in *. unfold initial_messages.
    rewrite !List.filter_app, !length_app, Hnone. simpl. lia. }
  split; [|split].
  - eexists. unfold initial_messages. simpl. reflexivity.
  - exact Hcount.
  - intros Hzero. rewrite Hcount, Hzero. reflexivity.
Qed.

Lemma system_message_first_witness :
  count_role "system"
    (initial_messages me "Do you know Rust?"
       [Plain "user" "Hello"; Plain "assistant" "Hello, how can I help?"]
     ++ [Assistant (CompletionMessage None (Some [question_call]))]
     ++ map Tool [ToolMessage "tool" recorded_json "call_1"])
  = 1.
Proof.
  assert (tool_rounds (run_env delivered (asks 1)) 1
            (initial_messages me "Do you know Rust?"
               [Plain "user" "Hello"; Plain "assistant" "Hello, how can I help?"])
            w0
            (initial_messages me "Do you know Rust?"
               [Plain "user" "Hello"; Plain "assistant" "Hello, how can I help?"]
             ++ [Assistant (CompletionMessage None (Some [question_call]))]
             ++ map Tool [ToolMessage "tool" recorded_json "call_1"])
            (World [VStr "Recording Do you know Rust?"]
               ["Tool called: record_unknown_question"] 1)) as Hrounds.
  { apply (tool_rounds_S _ 0 _ w0 (requests_tools [question_call])
             (Choice "tool_calls" (CompletionMessage None (Some [question_call])))
             [] [question_call]
             [ToolMessage "tool" recorded_json "call_1"]
             (World [VStr "Recording Do you know Rust?"]
                ["Tool called: record_unknown_question"] 1));
      try reflexivity. apply tool_rounds_O. }
  apply (proj2 (proj2 (system_message_first _ _ _ _ _ _ _ _ Hrounds))).
  reflexivity.
Defined.

(** C7, as stated, fails on a history that itself holds a message with
    role "system": the endpoint then receives two of them. *)
Lemma history_with_system_message :
  count_role "system"
    (initial_messages me "What is your background?"
       [Plain "system" "Answer in French."])
  <> 1.
Proof. vm_compute. discriminate. Qed.

(** ** How [handle_tool_call] composes, and what it touches *)

Section Effects.

Context (E : env).

Lemma handle_tool_call_loop_results tool_calls : forall results w,
  handle_tool_call_loop E results tool_calls w
  = match handle_tool_call_loop E [] tool_calls w with
    | (Ok added, w') => (Ok (results ++ added), w')
    | (Raise e, w') => (Raise e, w')
    end.
Proof.
  induction tool_calls as [|tool_call rest IH]; intros results w; simpl.
  - unfold ret. rewrite app_nil_r. reflexivity.
  - unfold bind. destruct (run_tool_call E tool_call w) as [[m|e] w1].
    + rewrite (IH (results ++ [m])), (IH ([] ++ [m])).
      destruct (handle_tool_call_loop E [] rest w1) as [[added|e] w2].
      * rewrite <- app_assoc. reflexivity.
      * reflexivity.
    + reflexivity.
Qed.

Lemma push_effects text w :
  posts (snd (push E text w)) = posts w ++ [text]
  /\ stdout (snd (push E text w)) = stdout w.
Proof. unfold push. destruct (requests_post E w text); split; reflexivity. Qed.

Lemma push_then_effects text (k : pyval -> M pyval) w :
  (forall v w1, snd (k v w1) = w1) ->
  posts (snd (bind (push E text) k w)) = posts w ++ [text]
  /\ stdout (snd (bind (push E text) k w)) = stdout w.
Proof.
  intros Hk. unfold bind. pose proof (push_effects text w) as H.
  destruct (push E text w) as [[v|e] w1]; simpl in H.
  - rewrite Hk. exact H.
  - exact H.
Qed.

Lemma call_effects tool arguments w :
  exists sent,
    posts (snd (call E tool arguments w)) = posts w ++ sent
    /\ length sent <= 1
    /\ stdout (snd (call E tool arguments w)) = stdout w.
Proof.
  assert (exists sent : list pyval,
            posts w = posts w ++ sent /\ length sent <= 1 /\ stdout w = stdout w)
    as Hsame.
  { exists []. rewrite app_nil_r. simpl. auto. }
  assert (forall text (k : pyval -> M pyval),
            (forall v w1, snd (k v w1) = w1) ->
            exists sent,
              posts (snd (bind (push E text) k w)) = posts w ++ sent
              /\ length sent <= 1
              /\ stdout (snd (bind (push E text) k w)) = stdout w) as Hpush.
  { intros text k Hk. exists [text].
    destruct (push_then_effects text k w Hk) as [Hp Hs]. simpl. auto. }
  unfold call, record_user_details, record_unknown_question.
  destruct arguments; try exact Hsame.
  destruct tool as [| | | | | |[]| | | |]; try exact Hsame.
  - destruct (only_keys _ _); [|exact Hsame].
    destruct (kwarg _ _) as [text|]; [|exact Hsame].
    exists [text]. destruct (push_effects text w) as [Hp Hs]. simpl. auto.
  - destruct (only_keys _ _); [|exact Hsame].
    destruct (kwarg "email" _); [|exact Hsame].
    apply Hpush. reflexivity.
  - destruct (only_keys _ _); [|exact Hsame].
    destruct (kwarg _ _); [|exact Hsame].
    apply Hpush. reflexivity.
  - destruct kvs; [|exact Hsame]. destruct (Me_init E); exact Hsame.
Qed.

Lemma run_tool_call_effects tool_call w :
  exists sent,
    posts (snd (run_tool_call E tool_call w)) = posts w ++ sent
    /\ length sent <= 1
    /\ (stdout (snd (run_tool_call E tool_call w))
        = stdout w ++ [tool_called tool_call]
        \/ (stdout (snd (run_tool_call E tool_call w)) = stdout w
            /\ sent = []
            /\ fst (run_tool_call E tool_call w) = Raise JSONDecodeError)).
Proof.
  unfold run_tool_call. run_monad.
  destruct (json_loads E _) as [arguments|]; simpl.
  - set (w1 := World _ _ _).
    destruct (truthy _).
    + destruct (call_effects (dict_get (globals E) (tc_name tool_call))
                  arguments w1) as (sent & Hp & Hlen & Hs).
      exists sent.
      destruct (call E _ arguments w1) as [[r|e] w2]; subst w1; simpl in *.
      * destruct (json_dumps r); simpl; split; [exact Hp| |exact Hp|];
          (split; [exact Hlen | left; exact Hs]).
      * split; [exact Hp|]. split; [exact Hlen | left; exact Hs].
    + exists []. simpl. rewrite app_nil_r.
      split; [reflexivity|]. split; [lia | left; reflexivity].
  - exists []. rewrite app_nil_r. simpl.
    split; [reflexivity|]. split; [lia | right; auto].
Qed.

End Effects.

(** X1.  Handling the calls of two lists one after the other is handling
    their concatenation: the results are concatenated, the second list
    starts in the world the first one left, and once a call of the first
    list has raised, no call of the second list is touched. *)
Theorem handle_tool_call_app (E : env) (first second : list tool_call)
  (w : world) :
  handle_tool_call E (first ++ second) w
  = match handle_tool_call E first w with
    | (Ok results1, w1) =>
        match handle_tool_call E second w1 with
        | (Ok results2, w2) => (Ok (results1 ++ results2), w2)
        | (Raise e, w2) => (Raise e, w2)
        end
    | (Raise e, w1) => (Raise e, w1)
    end.
Proof.
  unfold handle_tool_call. rewrite handle_tool_call_loop_app.
  destruct (handle_tool_call_loop E [] first w) as [[results1|e] w1].
  - apply handle_tool_call_loop_results.
  - reflexivity.
Qed.

(** X2.  Whatever its outcome, [handle_tool_call] never calls the
    generation endpoint, sends at most one notification for each call it
    has started and removes none, and prints one line, with the name of
    the tool, for each call it has started, in their order; when it
    returns, it has started every call. *)
Theorem handle_tool_call_effects (E : env) (tool_calls : list tool_call)
  (w : world) :
  exists sent started,
    posts (snd (handle_tool_call E tool_calls w)) = posts w ++ sent
    /\ length sent <= started
    /\ started <= length tool_calls
    /\ stdout (snd (handle_tool_call E tool_calls w))
       = stdout w ++ map tool_called (take started tool_calls)
    /\ api_calls (snd (handle_tool_call E tool_calls w)) = api_calls w
    /\ (forall results,
          fst (handle_tool_call E tool_calls w) = Ok results ->
          started = length tool_calls).
Proof.
  unfold handle_tool_call. generalize (@nil tool_message) as results.
  revert w. induction tool_calls as [|tool_call rest IH]; intros w results.
  - exists [], 0. simpl. rewrite !app_nil_r. auto 10.
  - simpl. unfold bind.
    destruct (run_tool_call_effects E tool_call w) as (sent1 & Hp & Hlen & Hs).
    pose proof (run_tool_call_api_calls E tool_call w) as Hapi.
    destruct (run_tool_call E tool_call w) as [[m|e] w1]; simpl in *.
    + destruct Hs as [Hs | (_ & _ & [=])].
      destruct (IH w1 (results ++ [m]))
        as (sent2 & started & Hp2 & Hlen2 & Hle & Hs2 & Hapi2 & Hall).
      exists (sent1 ++ sent2), (S started). simpl.
      rewrite Hp2, Hp, Hs2, Hs, Hapi2, Hapi, length_app, <- !app_assoc.
      repeat split; try reflexivity; try lia.
      intros all Hok. rewrite (Hall all Hok). reflexivity.
    + destruct Hs as [Hs | (Hs & -> & _)].
      * exists sent1, 1. simpl. rewrite Hp, Hs, Hapi.
        repeat split; try reflexivity; try lia. discriminate.
      * exists [], 0. simpl. rewrite Hp, Hs, Hapi, !app_nil_r.
        repeat split; try reflexivity; try lia. discriminate.
Qed.

(** ** The rounds of a turn *)

Section Turn.

Context (E : env).

Lemma tool_rounds_exchanges k messages w messages' w' :
  tool_rounds E k messages w messages' w' ->
  exists added, messages' = messages ++ added /\ exchanges added.
Proof.
  induction 1 as [|k messages w response choice others calls results w2
                   messages' w' _ _ _ Hcalls Hhandle _ IH].
  - exists []. split; [symmetry; apply app_nil_r | constructor].
  - destruct IH as (added & -> & Hadded).
    exists (Assistant (message choice) :: map Tool results ++ added). split.
    + rewrite <- !app_assoc. reflexivity.
    + econstructor; [exact Hcalls| |exact Hadded].
      eapply handle_tool_call_ok. exact Hhandle.
Qed.

(** After [k] rounds of tool calls, the outcome of [chat] is that of
    the next pass through the loop. *)
Lemma chat_after_tool_rounds k self question history w messages' w' fuel :
  tool_rounds E k (initial_messages self question history) w messages' w' ->
  k < fuel ->
  chat E fuel self question history w
  = match round E messages' w' with
    | Continue messages2 w2 => chat_loop E (fuel - S k) messages2 w2
    | Return answer w2 => Some (Ok answer, w2)
    | Abort e w2 => Some (Raise e, w2)
    end.
Proof.
  intros Hrounds Hfuel. unfold chat.
  replace fuel with (k + S (fuel - S k)) at 1 by lia.
  rewrite (chat_loop_tool_rounds E _ _ _ _ _ Hrounds). reflexivity.
Qed.

End Turn.

(** X3.  Every sequence of messages that [chat] passes to the endpoint
    starts with the system message, the history and the user message it
    was first built from, and what follows is a sequence of rounds: the
    message of the model that carries tool calls, then one tool result
    for each of its calls, with the id of the call, in the order of the
    calls.  Nothing is ever changed or removed. *)
Theorem chat_messages_grow_by_exchanges (E : env) (k : nat) (self : Me)
  (question : string) (history : list msg) (w : world) (messages' : list msg)
  (w' : world) :
  tool_rounds E k (initial_messages self question history) w messages' w' ->
  exists added,
    messages'
    = [Plain "system" (system_prompt self)] ++ history
      ++ [Plain "user" question] ++ added
    /\ exchanges added.
Proof.
  intros Hrounds.
  destruct (tool_rounds_exchanges E _ _ _ _ _ Hrounds) as (added & -> & Hadded).
  exists added. split; [|exact Hadded].
  unfold initial_messages. rewrite <- !app_assoc. reflexivity.
Qed.

Lemma chat_messages_grow_by_exchanges_witness :
  exists added,
    initial_messages me "Do you know Rust?" []
    ++ [Assistant (CompletionMessage None (Some [question_call]))]
    ++ map Tool [ToolMessage "tool" recorded_json "call_1"]
    = [Plain "system" (system_prompt me)] ++ []
      ++ [Plain "user" "Do you know Rust?"] ++ added
    /\ exchanges added.
Proof.
  apply (chat_messages_grow_by_exchanges (run_env delivered (asks 1)) 1 me
           "Do you know Rust?" [] w0 _
           (World [VStr "Recording Do you know Rust?"]
              ["Tool called: record_unknown_question"] 1)).
  apply (tool_rounds_S _ 0 _ w0 (requests_tools [question_call])
           (Choice "tool_calls" (CompletionMessage None (Some [question_call])))
           [] [question_call]
           [ToolMessage "tool" recorded_json "call_1"]
           (World [VStr "Recording Do you know Rust?"]
              ["Tool called: record_unknown_question"] 1));
    try reflexivity.
  apply tool_rounds_O.
Defined.

(** X4.  When the call to the endpoint raises, in whatever round,
    [chat] raises the same exception at once: the call is not made
    again, and what the earlier rounds sent and printed stays. *)
Theorem endpoint_failure_ends_turn (E : env) (k : nat) (self : Me)
  (question : string) (history : list msg) (w : world) (messages' : list msg)
  (w' : world) (e : exn) (fuel : nat) :
  tool_rounds E k (initial_messages self question history) w messages' w' ->
  completions_create E (api_calls w') messages' = Raise e ->
  k < fuel ->
  chat E fuel self question history w
  = Some (Raise e, World (posts w') (stdout w') (S (api_calls w')))
  /\ S (api_calls w') = api_calls w + S k.
Proof.
  intros Hrounds Hcreate Hfuel. split.
  - rewrite (chat_after_tool_rounds E _ _ _ _ _ _ _ _ Hrounds Hfuel).
    unfold round. rewrite Hcreate. reflexivity.
  - rewrite (tool_rounds_api_calls E _ _ _ _ _ Hrounds). lia.
Qed.

Lemma endpoint_failure_ends_turn_witness :
  chat (run_env delivered []) 3 me "What is your background?" [] w0
  = Some (Raise (Exception "openai.APIConnectionError"), World [] [] 1).
Proof.
  apply (endpoint_failure_ends_turn (run_env delivered []) 0 me
           "What is your background?" [] w0
           (initial_messages me "What is your background?" []) w0
           (Exception "openai.APIConnectionError") 3).
  - apply tool_rounds_O.
  - reflexivity.
  - lia.
Defined.

(** X5.  A response without any choice makes [chat] raise [IndexError],
    and a first choice with finish reason "tool_calls" whose message
    carries no list of tool calls makes it raise [TypeError]; in both
    cases no tool runs in that round. *)
Theorem unusable_response_ends_turn (E : env) (k : nat) (self : Me)
  (question : string) (history : list msg) (w : world) (messages' : list msg)
  (w' : world) (response : completion) (fuel : nat) :
  tool_rounds E k (initial_messages self question history) w messages' w' ->
  completions_create E (api_calls w') messages' = Ok response ->
  k < fuel ->
  (choices response = [] ->
   chat E fuel self question history w = Some (Raise IndexError, called w'))
  /\ (forall first others,
        choices response = first :: others ->
        finish_reason first = "tool_calls" ->
        tool_calls (message first) = None ->
        chat E fuel self question history w = Some (Raise TypeError, called w')).
Proof.
  intros Hrounds Hcreate Hfuel. split.
  - intros Hnone.
    rewrite (chat_after_tool_rounds E _ _ _ _ _ _ _ _ Hrounds Hfuel).
    unfold round. rewrite Hcreate, Hnone. reflexivity.
  - intros first others Hchoices Hfinish Hnull.
    rewrite (chat_after_tool_rounds E _ _ _ _ _ _ _ _ Hrounds Hfuel).
    unfold round. rewrite Hcreate, Hchoices, Hfinish, Hnull. reflexivity.
Qed.

Lemma unusable_response_ends_turn_witness :
  chat (run_env delivered [Completion []]) 3 me "Hello" [] w0
  = Some (Raise IndexError, World [] [] 1).
Proof.
  apply (proj1 (unusable_response_ends_turn (run_env delivered [Completion []])
                  0 me "Hello" [] w0 (initial_messages me "Hello" []) w0
                  (Completion []) 3 (tool_rounds_O _ _ _) eq_refl
                  ltac:(lia))).
  reflexivity.
Defined.

(** X6.  The loop has no way out of its own: when the endpoint answers
    every round with tool calls that are handled, [chat] is still
    running after any number of passes. *)
Theorem chat_runs_while_tools_requested (E : env) (self : Me)
  (question : string) (history : list msg) (w : world) :
  (forall k, exists messages' w',
      tool_rounds E k (initial_messages self question history) w messages' w') ->
  forall fuel, chat E fuel self question history w = None.
Proof.
  intros Hall fuel. destruct (Hall fuel) as (messages' & w' & Hrounds).
  unfold chat. replace fuel with (fuel + 0) by lia.
  rewrite (chat_loop_tool_rounds E _ _ _ _ _ Hrounds). reflexivity.
Qed.

Lemma insistent_rounds k : forall messages w,
  exists messages' w', tool_rounds insistent k messages w messages' w'.
Proof.
  induction k as [|k IH]; intros messages w.
  - exists messages, w. constructor.
  - destruct (IH (messages
                  ++ [Assistant (CompletionMessage None (Some [question_call]))]
                  ++ map Tool [ToolMessage "tool" recorded_json "call_1"])
                (World (posts w ++ [VStr "Recording Do you know Rust?"])
                   (stdout w ++ ["Tool called: record_unknown_question"])
                   (S (api_calls w))))
      as (messages' & w' & Hrounds).
    exists messages', w'.
    apply (tool_rounds_S _ k messages w (requests_tools [question_call])
             (Choice "tool_calls" (CompletionMessage None (Some [question_call])))
             [] [question_call]
             [ToolMessage "tool" recorded_json "call_1"]
             (World (posts w ++ [VStr "Recording Do you know Rust?"])
                (stdout w ++ ["Tool called: record_unknown_question"])
                (S (api_calls w)))); try reflexivity.
    exact Hrounds.
Defined.

Lemma chat_runs_while_tools_requested_witness :
  chat insistent 5 me "Do you know Rust?" [] w0 = None.
Proof.
  apply (chat_runs_while_tools_requested insistent me "Do you know Rust?" [] w0).
  intros k. apply insistent_rounds.
Defined.

(** ** A question that could not be answered *)

Lemma call_record_unknown_question (E : env) (asked : string) (w : world) :
  call E (VFunction Frecord_unknown_question) (VDict [("question", VStr asked)]) w
  = (match requests_post E w (VStr ("Recording " +:+ asked)) with
     | Responded _ => Ok recorded
     | Failed e => Raise e
     end,
     World (posts w ++ [VStr ("Recording " +:+ asked)]) (stdout w) (api_calls w)).
Proof. exact (push_then_recorded E (VStr ("Recording " +:+ asked)) w). Qed.

Lemma run_record_unknown_question (E : env) (tool_call : tool_call)
  (asked : string) (status : Z) (w : world) :
  tc_name tool_call = "record_unknown_question" ->
  globals E !! "record_unknown_question"
  = Some (VFunction Frecord_unknown_question) ->
  json_loads E (tc_arguments tool_call) = Some (VDict [("question", VStr asked)]) ->
  requests_post E
    (World (posts w) (stdout w ++ [tool_called tool_call]) (api_calls w))
    (VStr ("Recording " +:+ asked))
  = Responded status ->
  run_tool_call E tool_call w
  = (Ok (ToolMessage "tool" recorded_json (tc_id tool_call)),
     World (posts w ++ [VStr ("Recording " +:+ asked)])
       (stdout w ++ [tool_called tool_call]) (api_calls w)).
Proof.
  intros Hname Hglobal Hload Hpost.
  assert (dict_get (globals E) (tc_name tool_call)
          = VFunction Frecord_unknown_question) as Htool.
  { unfold dict_get. rewrite Hname, Hglobal. reflexivity. }
  rewrite (run_tool_call_resolved E tool_call _ w Hload)
    by (rewrite Htool; reflexivity).
  rewrite Htool. unfold bind at 1. unfold print. cbv beta iota.
  unfold bind at 1. rewrite call_record_unknown_question.
  cbn [posts stdout api_calls]. fold (tool_called tool_call).
  rewrite Hpost. reflexivity.
Qed.

(** X7.  When the first response asks for [record_unknown_question] with
    the payload [{"question": q}], the send is answered, and the second
    response is a final one, [chat] returns the content of the second
    response after two calls to the endpoint, and has sent exactly one
    notification, "Recording q".  The endpoint got, on its second call,
    the first messages followed by the message of the model and the
    result [{"recorded": "ok"}] under the id of the call. *)
Theorem chat_records_unknown_question (E : env) (self : Me)
  (question : string) (history : list msg) (w : world)
  (response1 response2 : completion) (first1 first2 : choice)
  (others1 others2 : list choice) (tool_call : tool_call) (asked : string)
  (status : Z) (fuel : nat) :
  tc_name tool_call = "record_unknown_question" ->
  globals E !! "record_unknown_question"
  = Some (VFunction Frecord_unknown_question) ->
  json_loads E (tc_arguments tool_call) = Some (VDict [("question", VStr asked)]) ->
  completions_create E (api_calls w) (initial_messages self question history)
  = Ok response1 ->
  choices response1 = first1 :: others1 ->
  finish_reason first1 = "tool_calls" ->
  tool_calls (message first1) = Some [tool_call] ->
  requests_post E
    (World (posts w) (stdout w ++ [tool_called tool_call]) (S (api_calls w)))
    (VStr ("Recording " +:+ asked))
  = Responded status ->
  completions_create E (S (api_calls w))
    (initial_messages self question history
     ++ [Assistant (message first1);
         Tool (ToolMessage "tool" recorded_json (tc_id tool_call))])
  = Ok response2 ->
  choices response2 = first2 :: others2 ->
  finish_reason first2 <> "tool_calls" ->
  chat E (S (S fuel)) self question history w
  = Some (Ok (content (message first2)),
          World (posts w ++ [VStr ("Recording " +:+ asked)])
            (stdout w ++ [tool_called tool_call]) (S (S (api_calls w)))).
Proof.
  intros Hname Hglobal Hload Hcreate1 Hchoices1 Hfinish1 Hcalls Hpost
    Hcreate2 Hchoices2 Hfinish2.
  assert (handle_tool_call E [tool_call] (called w)
          = (Ok [ToolMessage "tool" recorded_json (tc_id tool_call)],
             World (posts w ++ [VStr ("Recording " +:+ asked)])
               (stdout w ++ [tool_called tool_call]) (S (api_calls w))))
    as Hhandle.
  { unfold handle_tool_call. simpl. unfold bind.
    rewrite (run_record_unknown_question E tool_call asked status (called w)
               Hname Hglobal Hload Hpost).
    reflexivity. }
  apply (chat_answer_after_tool_rounds E 1 self question history w
           (initial_messages self question history
            ++ [Assistant (message first1);
                Tool (ToolMessage "tool" recorded_json (tc_id tool_call))])
           (World (posts w ++ [VStr ("Recording " +:+ asked)])
              (stdout w ++ [tool_called tool_call]) (S (api_calls w)))
           response2 first2 others2 (S (S fuel))).
  - apply (tool_rounds_S E 0 _ w response1 first1 others1 [tool_call] _ _ _ _
             Hcreate1 Hchoices1 Hfinish1 Hcalls Hhandle).
    apply tool_rounds_O.
  - exact Hcreate2.
  - exact Hchoices2.
  - exact Hfinish2.
  - lia.
Qed.

Lemma chat_records_unknown_question_witness :
  chat (run_env delivered
          [requests_tools [question_call]; stop (Some "Logged your question.")])
    2 me "Do you know Rust?" [] w0
  = Some (Ok (Some "Logged your question."),
          World [VStr "Recording Do you know Rust?"]
            ["Tool called: record_unknown_question"] 2).
Proof.
  apply (chat_records_unknown_question
           (run_env delivered
              [requests_tools [question_call];
               stop (Some "Logged your question.")])
           me "Do you know Rust?" [] w0
           (requests_tools [question_call]) (stop (Some "Logged your question."))
           (Choice "tool_calls" (CompletionMessage None (Some [question_call])))
           (Choice "stop" (CompletionMessage (Some "Logged your question.") None))
           [] [] question_call "Do you know Rust?" 200 0).
  - reflexivity.
  - reflexivity.
  - reflexivity.
  - reflexivity.
  - reflexivity.
  - reflexivity.
  - reflexivity.
  - reflexivity.
  - reflexivity.
  - reflexivity.
  - discriminate.
Defined.

(** ** Payloads and declarations *)

(** X8.  For each of the two declared tools, the name declared is bound
    in the module to a function, and the keys that the declaration
    allows are exactly those that the call accepts: a payload with no
    key outside the declared properties and with every required key
    makes one send and answers by its outcome, whatever the types of the
    values; any other payload raises [TypeError] before anything is
    sent. *)
Theorem declared_keys_are_accepted_keys (E : env) (entry function : pyval)
  (tool_name : string) (kwargs : list (string * pyval)) (w : world) :
  In entry declarations ->
  item "function" entry = Some function ->
  declared_name function = Some tool_name ->
  (exists f, dict_get app_globals tool_name = VFunction f)
  /\ (conforms function kwargs = true ->
      exists text,
        call E (dict_get app_globals tool_name) (VDict kwargs) w
        = (match requests_post E w text with
           | Responded _ => Ok recorded
           | Failed e => Raise e
           end,
           World (posts w ++ [text]) (stdout w) (api_calls w)))
  /\ (conforms function kwargs = false ->
      call E (dict_get app_globals tool_name) (VDict kwargs) w
      = (Raise TypeError, w)).
Proof.
  intros Hin Hfunction Hname.
  destruct Hin as [<- | [<- | []]].
  - assert (Some function = Some record_user_details_json) as [= ->]
      by (rewrite <- Hfunction; reflexivity).
    assert (Some tool_name = Some "record_user_details") as [= ->]
      by (rewrite <- Hname; reflexivity).
    change (dict_get app_globals "record_user_details")
      with (VFunction Frecord_user_details).
    unfold conforms.
    change (declared_properties record_user_details_json)
      with ["email"; "name"; "notes"].
    change (declared_required record_user_details_json) with ["email"].
    unfold call. simpl forallb.
    split; [eexists; reflexivity|].
    destruct (only_keys ["email"; "name"; "notes"] kwargs);
      destruct (kwarg "email" kwargs) as [email|]; simpl;
      split; try discriminate; try reflexivity.
    intros _. eexists. apply push_then_recorded.
  - assert (Some function = Some record_unknown_question_json) as [= ->]
      by (rewrite <- Hfunction; reflexivity).
    assert (Some tool_name = Some "record_unknown_question") as [= ->]
      by (rewrite <- Hname; reflexivity).
    change (dict_get app_globals "record_unknown_question")
      with (VFunction Frecord_unknown_question).
    unfold conforms.
    change (declared_properties record_unknown_question_json) with ["question"].
    change (declared_required record_unknown_question_json) with ["question"].
    unfold call. simpl forallb.
    split; [eexists; reflexivity|].
    destruct (only_keys ["question"] kwargs);
      destruct (kwarg "question" kwargs) as [asked|]; simpl;
      split; try discriminate; try reflexivity.
    intros _. eexists. apply push_then_recorded.
Qed.

Lemma declared_keys_are_accepted_keys_witness :
  call (run_env delivered []) (dict_get app_globals "record_user_details")
    (VDict [("notes", VStr "call me"); ("email", VInt 7)]) w0
  = (Raise TypeError, w0)
  \/ exists text,
       call (run_env delivered []) (dict_get app_globals "record_user_details")
         (VDict [("notes", VStr "call me"); ("email", VInt 7)]) w0
       = (match delivered w0 text with
          | Responded _ => Ok recorded
          | Failed e => Raise e
          end,
          World (posts w0 ++ [text]) (stdout w0) (api_calls w0)).
Proof.
  right.
  apply (proj1 (proj2 (declared_keys_are_accepted_keys (run_env delivered [])
           (VDict [("type", VStr "function"); ("function", record_user_details_json)])
           record_user_details_json "record_user_details"
           [("notes", VStr "call me"); ("email", VInt 7)] w0
           (or_introl eq_refl) eq_refl eq_refl))).
  reflexivity.
Defined.

(** X9.  A payload that decodes to something other than an object (a
    list, a string, a number, [null]) makes the call of a resolved tool
    raise [TypeError] once its name has been printed, with nothing sent;
    under a name that is not resolved the same payload gets the empty
    result. *)
Theorem non_object_payload (E : env) (tool_call : tool_call) (v : pyval)
  (w : world) :
  json_loads E (tc_arguments tool_call) = Some v ->
  (forall kvs, v <> VDict kvs) ->
  (truthy (dict_get (globals E) (tc_name tool_call)) = true ->
   run_tool_call E tool_call w
   = (Raise TypeError,
      World (posts w) (stdout w ++ [tool_called tool_call]) (api_calls w)))
  /\ (truthy (dict_get (globals E) (tc_name tool_call)) = false ->
      run_tool_call E tool_call w
      = (Ok (ToolMessage "tool" "{}" (tc_id tool_call)),
         World (posts w) (stdout w ++ [tool_called tool_call]) (api_calls w))).
Proof.
  intros Hload Hother. split.
  - intros Htrue. rewrite (run_tool_call_resolved E tool_call v w Hload Htrue).
    unfold bind at 1. unfold print. cbv beta iota. unfold bind at 1.
    assert (forall tool w1, call E tool v w1 = (Raise TypeError, w1)) as Hcall.
    { intros tool w1. unfold call.
      destruct v; try reflexivity. destruct (Hother kvs eq_refl). }
    rewrite Hcall. reflexivity.
  - intros Hfalse. apply (run_tool_call_unresolved E tool_call v w Hload Hfalse).
Qed.

Lemma non_object_payload_witness :
  run_tool_call list_env (ToolCall "call_1" "record_user_details" "[1]") w0
  = (Raise TypeError, World [] ["Tool called: record_user_details"] 0).
Proof.
  apply (proj1 (non_object_payload list_env
                  (ToolCall "call_1" "record_user_details" "[1]")
                  (VList [VInt 1]) w0 eq_refl
                  ltac:(discriminate))).
  reflexivity.
Defined.

(** ** The system prompt *)

(** X10.  The system prompt starts by naming the person, and carries the
    summary and the LinkedIn text whole and unchanged, the summary
    first. *)
Theorem system_prompt_carries_profile (self : Me) :
  (exists rest,
     system_prompt self = "You are acting as " +:+ name self +:+ rest)
  /\ (exists before between after,
        system_prompt self
        = before +:+ summary self +:+ between +:+ linkedin self +:+ after).
Proof.
  split.
  - eexists. unfold system_prompt. reflexivity.
  - exists ("You are acting as " +:+ name self +:+ ". " +:+ nl
            +:+ "You are answering questions on " +:+ name self
            +:+ "'s website, particularly about career, background, skills, and experience. "
            +:+ nl
            +:+ "You must represent " +:+ name self
            +:+ " professionally and faithfully." +:+ nl
            +:+ nl
            +:+ "If you don't know an answer, use the `record_unknown_question` tool to log it."
            +:+ nl
            +:+ "If the user seems interested, ask for their email and log it with `record_user_details`."
            +:+ nl
            +:+ nl
            +:+ "Here is background context:" +:+ nl
            +:+ nl
            +:+ "## Summary:" +:+ nl).
    exists (nl +:+ nl +:+ "## LinkedIn Profile:" +:+ nl).
    eexists. unfold system_prompt. rewrite !append_assoc. reflexivity.
Qed.

(** ** The constructor *)

Lemma read_pages_texts (texts : list (option string)) : forall linkedin,
  read_pages linkedin (map Ok texts) = Ok (linkedin +:+ concat_texts texts).
Proof.
  assert (forall s, s +:+ "" = s) as Hright.
  { induction s as [|c s IH]; [reflexivity | exact (f_equal (String c) IH)]. }
  induction texts as [|[t|] rest IH]; intros linkedin; simpl.
  - rewrite Hright. reflexivity.
  - destruct (String.eqb_spec t "") as [-> | _].
    + apply IH.
    + rewrite IH, append_assoc. reflexivity.
  - apply IH.
Qed.

Lemma read_pages_ok (pages : list (res (option string))) :
  forall linkedin text,
    read_pages linkedin pages = Ok text ->
    exists texts,
      pages = map Ok texts /\ text = linkedin +:+ concat_texts texts.
Proof.
  induction pages as [|[[t|]|e] rest IH]; intros linkedin text H; simpl in H.
  - injection H as <-. exists []. split; [reflexivity|].
    pose proof (read_pages_texts [] linkedin) as Hnil. simpl in Hnil.
    injection Hnil as Hnil. exact Hnil.
  - destruct (String.eqb_spec t "") as [-> | _].
    + apply IH in H as (texts & -> & ->). exists (Some "" :: texts).
      split; reflexivity.
    + apply IH in H as (texts & -> & ->). exists (Some t :: texts).
      split; [reflexivity|]. simpl. apply append_assoc.
  - apply IH in H as (texts & -> & ->). exists (None :: texts).
    split; reflexivity.
  - discriminate H.
Qed.

Lemma read_pages_raise (pages : list (res (option string))) :
  forall linkedin e,
    read_pages linkedin pages = Raise e <->
    exists texts rest, pages = map Ok texts ++ Raise e :: rest.
Proof.
  induction pages as [|[[t|]|e'] rest IH]; intros linkedin e; simpl.
  - split; [discriminate|]. intros (texts & rest & H).
    destruct texts; discriminate H.
  - assert (read_pages (if String.eqb t "" then linkedin else linkedin +:+ t) rest
            = Raise e
            <-> exists texts rest0,
                  Ok (Some t) :: rest = map Ok texts ++ Raise e :: rest0) as Hstep.
    { rewrite IH. split.
      - intros (texts & rest0 & ->). exists (Some t :: texts), rest0. reflexivity.
      - intros (texts & rest0 & H). destruct texts as [|o texts]; [discriminate H|].
        injection H as _ ->. exists texts, rest0. reflexivity. }
    destruct (String.eqb t ""); exact Hstep.
  - rewrite IH. split.
    + intros (texts & rest0 & ->). exists (None :: texts), rest0. reflexivity.
    + intros (texts & rest0 & H). destruct texts as [|o texts]; [discriminate H|].
      injection H as _ ->. exists texts, rest0. reflexivity.
  - split.
    + intros [= ->]. exists [], rest. reflexivity.
    + intros (texts & rest0 & H). destruct texts as [|o texts].
      * injection H as -> _. reflexivity.
      * discriminate H.
Qed.

(** X11.  The constructor returns an instance exactly when the key is
    set and not empty, the client is built, the profile is opened, the
    text of every page is extracted and the summary is read; the instance
    then has the fixed name, the texts of the pages one after the other
    in the order of the pages (a page without text adds nothing) and the
    summary as read. *)
Theorem Me__init___returns (S : startup) (self : Me) :
  Me__init__ S = Ok self <->
  exists key texts,
    getenv S "GEMINI_API_KEY" = Some key
    /\ key <> ""
    /\ openai_client S key = Ok tt
    /\ pdf_pages S "me/profile.pdf" = Ok (map Ok texts)
    /\ read_file S "me/summary.txt" = Ok (summary self)
    /\ name self = "Mahad Habib Rana"
    /\ linkedin self = concat_texts texts.
Proof.
  unfold Me__init__. split.
  - destruct (getenv S "GEMINI_API_KEY") as [key|] eqn:Hgetenv; [|discriminate].
    destruct (String.eqb_spec key "") as [|Hkey]; [discriminate|].
    destruct (openai_client S key) as [[]|] eqn:Hclient; [|discriminate].
    destruct (pdf_pages S "me/profile.pdf") as [pages|] eqn:Hpdf; [|discriminate].
    destruct (read_pages "" pages) as [text|] eqn:Hpages; [|discriminate].
    destruct (read_file S "me/summary.txt") as [file|] eqn:Hfile; [|discriminate].
    intros [= <-]. apply read_pages_ok in Hpages as (texts & -> & ->).
    exists key, texts. simpl.
    split; [reflexivity|]. split; [exact Hkey|]. split; [exact Hclient|].
    split; [reflexivity|]. split; [reflexivity|]. split; reflexivity.
  - intros (key & texts & -> & Hkey & -> & -> & -> & Hname & Hlinkedin).
    destruct (String.eqb_spec key "") as [|_]; [contradiction|].
    rewrite read_pages_texts. destruct self as [n l s]. simpl in *.
    rewrite Hname, Hlinkedin. reflexivity.
Qed.

(** X12.  The constructor raises what its first failing step raises, the
    steps being, in this order: the key, which raises [ValueError] when
    it is missing or empty, before the client is built or any file is
    touched; the client; the opening of the profile; the extraction of
    the pages, in their order; the reading of the summary. *)
Theorem Me__init___raises (S : startup) (e : exn) :
  Me__init__ S = Raise e <->
  ((getenv S "GEMINI_API_KEY" = None \/ getenv S "GEMINI_API_KEY" = Some "")
   /\ e = Exception "ValueError")
  \/ exists key,
       getenv S "GEMINI_API_KEY" = Some key /\ key <> ""
       /\ (openai_client S key = Raise e
           \/ (openai_client S key = Ok tt
               /\ (pdf_pages S "me/profile.pdf" = Raise e
                   \/ exists pages,
                        pdf_pages S "me/profile.pdf" = Ok pages
                        /\ ((exists texts rest,
                               pages = map Ok texts ++ Raise e :: rest)
                            \/ ((exists texts, pages = map Ok texts)
                                /\ read_file S "me/summary.txt" = Raise e))))).
Proof.
  unfold Me__init__. split.
  - destruct (getenv S "GEMINI_API_KEY") as [key|];
      [|intros [= <-]; left; auto].
    destruct (String.eqb_spec key "") as [-> | Hkey];
      [intros [= <-]; left; auto|].
    intros H. right. exists key. split; [reflexivity|]. split; [exact Hkey|].
    destruct (openai_client S key) as [[]|e1] eqn:Hclient;
      [right | left; injection H as ->; reflexivity].
    split; [reflexivity|].
    destruct (pdf_pages S "me/profile.pdf") as [pages|e2] eqn:Hpdf;
      [right | left; injection H as ->; reflexivity].
    exists pages. split; [reflexivity|].
    destruct (read_pages "" pages) as [text|e3] eqn:Hpages.
    + right. apply read_pages_ok in Hpages as (texts & -> & _).
      split; [exists texts; reflexivity|].
      destruct (read_file S "me/summary.txt") as [file|e4] eqn:Hfile;
        [discriminate H | injection H as ->; reflexivity].
    + left. injection H as ->. apply read_pages_raise in Hpages. exact Hpages.
  - intros [[[-> | ->] ->] | (key & -> & Hkey & Hsteps)]; try reflexivity.
    destruct (String.eqb_spec key "") as [|_]; [contradiction|].
    destruct Hsteps as [-> | [-> Hsteps]]; [reflexivity|].
    destruct Hsteps as [-> | (pages & -> & Hsteps)]; [reflexivity|].
    destruct Hsteps as [Hpages | [(texts & ->) ->]].
    + apply (read_pages_raise pages "" e) in Hpages. rewrite Hpages. reflexivity.
    + rewrite read_pages_texts. reflexivity.
Qed.

Lemma Me__init___returns_witness :
  Me__init__ sample_startup
  = Ok (MkMe "Mahad Habib Rana" "Engineer. Ten years." "A short summary.").
Proof.
  apply (proj2 (Me__init___returns sample_startup
                  (MkMe "Mahad Habib Rana" "Engineer. Ten years."
                     "A short summary."))).
  exists "secret", [Some "Engineer. "; Some ""; Some "Ten years."].
  split; [reflexivity|]. split; [discriminate|].
  split; [reflexivity|]. split; [reflexivity|]. split; [reflexivity|].
  split; reflexivity.
Defined.

Lemma Me__init___raises_witness :
  Me__init__ (Startup (fun _ => Some "") (openai_client sample_startup)
                (fun _ => Raise (Exception "FileNotFoundError"))
                (fun _ => Raise (Exception "FileNotFoundError")))
  = Raise (Exception "ValueError").
Proof.
  apply (proj2 (Me__init___raises _ (Exception "ValueError"))).
  left. split; [right; reflexivity | reflexivity].
Defined.
